(** * Serve microbenchmarks: the metric reporter and the benchmark driver

    A shallow embedding of [release/serve_tests/workloads/microbenchmarks.py]:
    the two converters from raw benchmark results to perf-metric records,
    the asynchronous driver [_main] and the command-line entry point [main].

    Python floats are modelled by exact rationals plus a not-a-number value:
    the rounding of IEEE arithmetic is abstracted away, its special value NaN
    is kept. *)

From Stdlib Require Import List String Bool Arith ZArith QArith Qround Lia Lqa.
From Stdlib Require Import Sorting.Sorted Sorting.Permutation Sorting.Mergesort.
From Stdlib Require Import Orders.
Import ListNotations.

Local Open Scope string_scope.
Local Open Scope list_scope.
Local Open Scope Q_scope.

(** ** Python values *)

(** A Python [float]: a finite number or NaN. *)
Inductive pyfloat : Type :=
| Float (q : Q)
| NaN.

(** [x <= y] on floats: every comparison with NaN is false. *)
Definition float_le (x y : pyfloat) : Prop :=
  match x, y with
  | Float a, Float b => a <= b
  | _, _ => False
  end.

(** [x == y] on floats: NaN equals nothing, not even itself. *)
Definition float_eq (x y : pyfloat) : Prop :=
  match x, y with
  | Float a, Float b => a == b
  | _, _ => False
  end.

(** The values stored in a metric record. *)
Inductive pyval : Type :=
| VStr (s : string)
| VFloat (x : pyfloat).

(** A Python [dict] with string keys, in insertion order. *)
Definition dict : Type := list (string * pyval).

Fixpoint dict_get (d : dict) (k : string) : option pyval :=
  match d with
  | [] => None
  | (k', v) :: d' => if String.eqb k k' then Some v else dict_get d' k
  end.

Definition dict_keys (d : dict) : list string := map fst d.

(** Python exceptions, as far as the program can meet them. *)
Inductive exn : Type :=
| ValueError (msg : string)
| RuntimeError (msg : string).

(** ** Computations that may raise and that act on a state

    [S] is the state the computation may read and write: the receiver of a
    method call, or the world the driver runs in.  The state survives an
    exception. *)

Inductive result (A : Type) : Type :=
| Ok (a : A)
| Raise (e : exn).
Arguments Ok {A} a.
Arguments Raise {A} e.

Definition Py (S A : Type) : Type := S -> result A * S.

Definition ret {S A : Type} (a : A) : Py S A := fun s => (Ok a, s).

Definition bind {S A B : Type} (c : Py S A) (k : A -> Py S B) : Py S B :=
  fun s =>
    match c s with
    | (Ok a, s') => k a s'
    | (Raise e, s') => (Raise e, s')
    end.

Definition raise {S A : Type} (e : exn) : Py S A := fun s => (Raise e, s).

Declare Scope py_scope.
Delimit Scope py_scope with py.
Notation "x <- c ;; k" := (bind c (fun x => k))
  (at level 61, c at next level, right associativity) : py_scope.
Notation "c ;;; k" := (bind c (fun _ => k))
  (at level 61, right associativity) : py_scope.

(** ** pandas Series and its quantile *)

(** A [pd.Series] of latency samples, in insertion order.  Latency samples are
    differences of clock readings, so they are finite numbers. *)
Definition Series : Type := list Q.

Module QOrder <: TotalLeBool.
Definition t : Type := Q.
Definition leb : Q -> Q -> bool := Qle_bool.
Lemma leb_total : forall a1 a2, leb a1 a2 = true \/ leb a2 a1 = true.
Proof.
  intros a1 a2. unfold leb. rewrite !Qle_bool_iff.
  destruct (Qlt_le_dec a1 a2) as [H | H]; [left; apply Qlt_le_weak, H | right; exact H].
Qed.
End QOrder.

Module QSort := Sort QOrder.

(** The position of quantile [q] among [n] sorted values, counted from 0. *)
Definition virtual_index (n : nat) (q : Q) : Q :=
  (inject_Z (Z.of_nat n) - 1) * q.

(** Linear interpolation from [a] to [b]. *)
Definition lerp (a b gamma : Q) : Q := a + (b - a) * gamma.

(** Modelled from the spec: [Series.quantile] belongs to pandas, which is not
    under src/.  The spec gives it as linear interpolation between the two
    nearest ranks of the sorted samples; this is pandas' default
    [interpolation='linear'], computed as numpy does: the virtual index
    [(n - 1) * q], its floor as the lower rank, the next rank clipped to the
    last one, and the fractional part as the weight.

    [quantile_of_sorted] works on the sorted copy.  An empty input has no
    quantile: pandas answers NaN. *)
Definition quantile_of_sorted (sorted : list Q) (q : Q) : pyfloat :=
  match sorted with
  | [] => NaN
  | _ :: _ =>
      let n := List.length sorted in
      let h := virtual_index n q in
      let previous := Z.to_nat (Qfloor h) in
      let next := Nat.min (S previous) (n - 1) in
      let gamma := h - inject_Z (Qfloor h) in
      Float (lerp (nth previous sorted 0) (nth next sorted 0) gamma)
  end.

(** Modelled from the spec: the method [Series.quantile(q)] of pandas (not
    under src/).  It raises [ValueError] unless [0 <= q <= 1], sorts a copy of
    the samples and leaves the receiver as it found it. *)
Definition Series_quantile (q : Q) : Py Series pyfloat :=
  fun self =>
    if Qle_bool 0 q && Qle_bool q 1 then
      let sorted := QSort.sort self in
      (Ok (quantile_of_sorted sorted q), self)
    else (Raise (ValueError "percentiles should all be in the interval [0, 1]"), self).

(** ** The metric reporter *)

(** [convert_throughput_to_perf_metrics(name, mean, std)] *)
Definition convert_throughput_to_perf_metrics
  (name : string) (mean std : pyfloat) : list dict :=
  [ [ ("perf_metric_name", VStr (name ++ "_avg_rps")%string);
      ("perf_metric_value", VFloat mean);
      ("perf_metric_type", VStr "THROUGHPUT") ];
    [ ("perf_metric_name", VStr (name ++ "_throughput_std")%string);
      ("perf_metric_value", VFloat std);
      ("perf_metric_type", VStr "THROUGHPUT") ] ].

(** [convert_latencies_to_perf_metrics(name, latencies)]: the four calls of
    [latencies.quantile] happen in the order of the list display, each on the
    Series as the previous call left it.  The percentiles 0.5, 0.9, 0.95 and
    0.99 are the rationals 1/2, 9/10, 19/20 and 99/100. *)
Definition convert_latencies_to_perf_metrics (name : string)
  : Py Series (list dict) :=
  (p50 <- Series_quantile (1 # 2) ;;
   p90 <- Series_quantile (9 # 10) ;;
   p95 <- Series_quantile (19 # 20) ;;
   p99 <- Series_quantile (99 # 100) ;;
   ret
     [ [ ("perf_metric_name", VStr (name ++ "_p50_latency")%string);
         ("perf_metric_value", VFloat p50);
         ("perf_metric_type", VStr "LATENCY") ];
       [ ("perf_metric_name", VStr (name ++ "_p90_latency")%string);
         ("perf_metric_value", VFloat p90);
         ("perf_metric_type", VStr "LATENCY") ];
       [ ("perf_metric_name", VStr (name ++ "_p95_latency")%string);
         ("perf_metric_value", VFloat p95);
         ("perf_metric_type", VStr "LATENCY") ];
       [ ("perf_metric_name", VStr (name ++ "_p99_latency")%string);
         ("perf_metric_value", VFloat p99);
         ("perf_metric_type", VStr "LATENCY") ] ])%py.

(** ** The world of the driver *)

(** Modelled from the spec: [generate_payload(size)] of
    [ray.serve._private.benchmarks.common] (not under src/) returns a blob of
    exactly [size] bytes whose content is unspecified; only the length is
    kept. *)
Inductive payload : Type :=
| Payload (size_bytes : N).

Definition generate_payload (size_bytes : N) : payload := Payload size_bytes.

(** The applications handed to [serve.run]: [D.bind()] or
    [D.options(max_ongoing_requests=n).bind()]. *)
Inductive application : Type :=
| Noop_bind (max_ongoing_requests : option N)
| GrpcDeployment_bind (max_ongoing_requests : option N)
| Benchmarker_bind (max_ongoing_requests : option N) (downstream : application).

(** The request a latency benchmark issues over and over. *)
Inductive request : Type :=
| requests_get (url : string)
| requests_post (url : string) (data : payload)
| stub_call_with_string (channel : string) (data : payload).

(** The batch function a throughput benchmark awaits over and over. *)
Inductive batch_fn : Type :=
| do_single_http_batch (batch_size : N)
| do_single_grpc_batch (batch_size : N).

(** A benchmark call: run from the driver over a transport, or run inside the
    serving process through the handle of a deployed [Benchmarker]. *)
Inductive benchmark_call : Type :=
| latency_call (issue : request) (num_requests : N)
| throughput_call (fn : batch_fn) (multiplier num_trials trial_runtime : N)
| handle_latency_call (num_requests : N) (data : option payload)
| handle_throughput_call (batch_size num_trials trial_runtime : N).

(** What a completed benchmark hands back. *)
Inductive benchmark_result : Type :=
| latencies_of (samples : Series)
| mean_std_of (mean std : pyfloat).

(** What the driver does to the outside, in the order it does it. *)
Inductive event : Type :=
| serve_start (grpc_port : N)
| serve_run (app : application)
| benchmark_run (call : benchmark_call) (res : benchmark_result)
| logging_info (perf_metrics : list dict)
| save_test_results (results : list (string * list dict)) (output_path : option string).

(** The samplers live in [ray.serve._private.benchmarks.common], not under
    src/: the driver only awaits them.  The world decides what a sampler
    measures, or that it fails, from everything that happened before. *)
Record world : Type := {
  latency_outcome : list event -> benchmark_call -> result Series;
  throughput_outcome : list event -> benchmark_call -> result (pyfloat * pyfloat)
}.

Definition M (A : Type) : Type := Py (list event) A.

Definition emit (e : event) : M unit := fun tr => (Ok tt, tr ++ [e]).

(** Call a method on an object held in a local variable that is not read
    again afterwards. *)
Definition call_on {S O A : Type} (o : O) (c : Py O A) : Py S A :=
  fun s => (fst (c o), s).

(* For latency benchmarks *)
Definition NUM_REQUESTS : N := 500.

(* For throughput benchmarks *)
Definition BATCH_SIZE : N := 100.
Definition NUM_TRIALS : N := 50.
Definition TRIAL_RUNTIME_S : N := 5.

Section Driver.

Variable w : world.

Definition await_latencies (call : benchmark_call) : M Series :=
  fun tr =>
    match latency_outcome w tr call with
    | Ok s => (Ok s, tr ++ [benchmark_run call (latencies_of s)])
    | Raise e => (Raise e, tr)
    end.

Definition await_mean_std (call : benchmark_call) : M (pyfloat * pyfloat) :=
  fun tr =>
    match throughput_outcome w tr call with
    | Ok (mean, std) => (Ok (mean, std), tr ++ [benchmark_run call (mean_std_of mean std)])
    | Raise e => (Raise e, tr)
    end.

(** [await run_latency_benchmark(lambda: ..., num_requests=n)] *)
Definition run_latency_benchmark (issue : request) (num_requests : N) : M Series :=
  await_latencies (latency_call issue num_requests).

(** [await run_throughput_benchmark(fn=..., multiplier=..., num_trials=...,
    trial_runtime=...)] *)
Definition run_throughput_benchmark
  (fn : batch_fn) (multiplier num_trials trial_runtime : N) : M (pyfloat * pyfloat) :=
  await_mean_std (throughput_call fn multiplier num_trials trial_runtime).

(** [await h.run_latency_benchmark.remote(num_requests=n, payload=...)] *)
Definition h_run_latency_benchmark_remote
  (num_requests : N) (data : option payload) : M Series :=
  await_latencies (handle_latency_call num_requests data).

(** [await h.run_throughput_benchmark.remote(batch_size=..., num_trials=...,
    trial_runtime=...)] *)
Definition h_run_throughput_benchmark_remote
  (batch_size num_trials trial_runtime : N) : M (pyfloat * pyfloat) :=
  await_mean_std (handle_throughput_call batch_size num_trials trial_runtime).

(** [perf_metrics.extend(convert_latencies_to_perf_metrics(name, latencies))] *)
Definition extend_latencies
  (perf_metrics : list dict) (name : string) (latencies : Series) : M (list dict) :=
  (recs <- call_on latencies (convert_latencies_to_perf_metrics name) ;;
   ret (perf_metrics ++ recs))%py.

(** [perf_metrics.extend(convert_throughput_to_perf_metrics(name, mean, std))] *)
Definition extend_throughput
  (perf_metrics : list dict) (name : string) (mean_std : pyfloat * pyfloat) : M (list dict) :=
  ret (perf_metrics ++ convert_throughput_to_perf_metrics name (fst mean_std) (snd mean_std)).

Definition http_url : string := "http://localhost:8000".
Definition grpc_target : string := "localhost:9000".

(** [async def _main(output_path, run_http, run_grpc, run_handle, run_latency,
    run_throughput)] *)
Definition _main (output_path : option string)
  (run_http run_grpc run_handle run_latency run_throughput : bool) : M unit :=
  (emit (serve_start 9000%N) ;;;
   let perf_metrics : list dict := [] in
   let payload_1mb := generate_payload 1000000%N in
   let payload_10mb := generate_payload 10000000%N in
   (* HTTP *)
   perf_metrics <-
     (if run_http then
        perf_metrics <-
          (if run_latency then
             emit (serve_run (Noop_bind None)) ;;;
             latencies <- run_latency_benchmark (requests_get http_url) NUM_REQUESTS ;;
             perf_metrics <- extend_latencies perf_metrics "http" latencies ;;
             latencies <- run_latency_benchmark (requests_post http_url payload_1mb) NUM_REQUESTS ;;
             perf_metrics <- extend_latencies perf_metrics "http_1mb" latencies ;;
             latencies <- run_latency_benchmark (requests_post http_url payload_10mb) NUM_REQUESTS ;;
             extend_latencies perf_metrics "http_10mb" latencies
           else ret perf_metrics) ;;
        (if run_throughput then
           emit (serve_run (Noop_bind None)) ;;;
           mean_std <- run_throughput_benchmark
                         (do_single_http_batch BATCH_SIZE) BATCH_SIZE NUM_TRIALS TRIAL_RUNTIME_S ;;
           perf_metrics <- extend_throughput perf_metrics "http" mean_std ;;
           emit (serve_run (Noop_bind (Some 100%N))) ;;;
           mean_std <- run_throughput_benchmark
                         (do_single_http_batch BATCH_SIZE) BATCH_SIZE NUM_TRIALS TRIAL_RUNTIME_S ;;
           extend_throughput perf_metrics "http_100_max_ongoing_requests" mean_std
         else ret perf_metrics)
      else ret perf_metrics) ;;
   (* GRPC *)
   perf_metrics <-
     (if run_grpc then
        perf_metrics <-
          (if run_latency then
             emit (serve_run (GrpcDeployment_bind None)) ;;;
             let grpc_payload_noop := Payload 0%N in
             let grpc_payload_1mb := payload_1mb in
             let grpc_payload_10mb := payload_10mb in
             latencies <- run_latency_benchmark
                            (stub_call_with_string grpc_target grpc_payload_noop) NUM_REQUESTS ;;
             perf_metrics <- extend_latencies perf_metrics "grpc" latencies ;;
             latencies <- run_latency_benchmark
                            (stub_call_with_string grpc_target grpc_payload_1mb) NUM_REQUESTS ;;
             perf_metrics <- extend_latencies perf_metrics "grpc_1mb" latencies ;;
             latencies <- run_latency_benchmark
                            (stub_call_with_string grpc_target grpc_payload_10mb) NUM_REQUESTS ;;
             extend_latencies perf_metrics "grpc_10mb" latencies
           else ret perf_metrics) ;;
        (if run_throughput then
           emit (serve_run (GrpcDeployment_bind None)) ;;;
           mean_std <- run_throughput_benchmark
                         (do_single_grpc_batch BATCH_SIZE) BATCH_SIZE NUM_TRIALS TRIAL_RUNTIME_S ;;
           perf_metrics <- extend_throughput perf_metrics "grpc" mean_std ;;
           emit (serve_run (GrpcDeployment_bind (Some 100%N))) ;;;
           mean_std <- run_throughput_benchmark
                         (do_single_grpc_batch BATCH_SIZE) BATCH_SIZE NUM_TRIALS TRIAL_RUNTIME_S ;;
           extend_throughput perf_metrics "grpc_100_max_ongoing_requests" mean_std
         else ret perf_metrics)
      else ret perf_metrics) ;;
   (* Handle *)
   perf_metrics <-
     (if run_handle then
        perf_metrics <-
          (if run_latency then
             emit (serve_run (Benchmarker_bind None (Noop_bind None))) ;;;
             latencies <- h_run_latency_benchmark_remote NUM_REQUESTS None ;;
             perf_metrics <- extend_latencies perf_metrics "handle" latencies ;;
             latencies <- h_run_latency_benchmark_remote NUM_REQUESTS (Some payload_1mb) ;;
             perf_metrics <- extend_latencies perf_metrics "handle_1mb" latencies ;;
             latencies <- h_run_latency_benchmark_remote NUM_REQUESTS (Some payload_10mb) ;;
             extend_latencies perf_metrics "handle_10mb" latencies
           else ret perf_metrics) ;;
        (if run_throughput then
           emit (serve_run (Benchmarker_bind None (Noop_bind None))) ;;;
           mean_std <- h_run_throughput_benchmark_remote BATCH_SIZE NUM_TRIALS TRIAL_RUNTIME_S ;;
           perf_metrics <- extend_throughput perf_metrics "handle" mean_std ;;
           emit (serve_run (Benchmarker_bind (Some 100%N) (Noop_bind (Some 100%N)))) ;;;
           mean_std <- h_run_throughput_benchmark_remote BATCH_SIZE NUM_TRIALS TRIAL_RUNTIME_S ;;
           extend_throughput perf_metrics "handle_100_max_ongoing_requests" mean_std
         else ret perf_metrics)
      else ret perf_metrics) ;;
   emit (logging_info perf_metrics) ;;;
   let results := [("perf_metrics", perf_metrics)] in
   emit (save_test_results results output_path))%py.

(** [def main(output_path, run_all, run_http, run_grpc, run_handle,
    run_latency, run_throughput)], run by [asyncio.run] to completion. *)
Definition main (output_path : option string)
  (run_all run_http run_grpc run_handle run_latency run_throughput : bool) : M unit :=
  (* If none of the flags are set, default to run all *)
  let run_all :=
    if negb (run_http || run_grpc || run_handle || run_latency || run_throughput)
    then true else run_all in
  let '(run_http, run_grpc, run_handle, run_latency, run_throughput) :=
    if run_all then (true, true, true, true, true)
    else (run_http, run_grpc, run_handle, run_latency, run_throughput) in
  _main output_path run_http run_grpc run_handle run_latency run_throughput.

End Driver.

(** A world in which every latency benchmark measures [samples] and every
    throughput benchmark reports [mean] and [std]. *)
Definition steady_world (samples : Series) (mean std : pyfloat) : world :=
  {| latency_outcome := fun _ _ => Ok samples;
     throughput_outcome := fun _ _ => Ok (mean, std) |}.

(** A world in which every benchmark fails. *)
Definition broken_world : world :=
  {| latency_outcome := fun _ _ => Raise (RuntimeError "request failed");
     throughput_outcome := fun _ _ => Raise (RuntimeError "request failed") |}.

(** ** Reading a trace *)

(** The benchmarks that ran, oldest first, each with what it measured. *)
Fixpoint benchmarks_of (tr : list event) : list (benchmark_call * benchmark_result) :=
  match tr with
  | [] => []
  | benchmark_run call res :: tr' => (call, res) :: benchmarks_of tr'
  | _ :: tr' => benchmarks_of tr'
  end.

(** The [perf_metrics] entry of the results saved last. *)
Fixpoint saved_perf_metrics (tr : list event) : option (list dict) :=
  match tr with
  | [] => None
  | e :: tr' =>
      match saved_perf_metrics tr' with
      | Some pm => Some pm
      | None =>
          match e with
          | save_test_results [(key, pm)] _ =>
              if String.eqb key "perf_metrics" then Some pm else None
          | _ => None
          end
      end
  end.

(** Every record that left the program, through the log or the saved results. *)
Definition records_in (tr : list event) : list dict :=
  flat_map
    (fun e =>
       match e with
       | logging_info perf_metrics => perf_metrics
       | save_test_results results _ => flat_map snd results
       | _ => []
       end)
    tr.

(** The records the reporter makes of one benchmark's result under [name]. *)
Definition records_of (name : string) (res : benchmark_result) : list dict :=
  match res with
  | latencies_of samples =>
      match fst (convert_latencies_to_perf_metrics name samples) with
      | Ok recs => recs
      | Raise _ => []
      end
  | mean_std_of mean std => convert_throughput_to_perf_metrics name mean std
  end.

(** A Perf Metric Record as the spec has it: exactly the three fields, a
    string name, a float value and a kind that is LATENCY or THROUGHPUT. *)
Definition is_perf_metric_record (d : dict) : Prop :=
  dict_keys d = ["perf_metric_name"; "perf_metric_value"; "perf_metric_type"] /\
  (exists name, dict_get d "perf_metric_name" = Some (VStr name)) /\
  (exists value, dict_get d "perf_metric_value" = Some (VFloat value)) /\
  (dict_get d "perf_metric_type" = Some (VStr "LATENCY") \/
   dict_get d "perf_metric_type" = Some (VStr "THROUGHPUT")).

(** A record that one of the two reporter functions returned. *)
Definition made_by_reporter (d : dict) : Prop :=
  (exists name samples recs,
      fst (convert_latencies_to_perf_metrics name samples) = Ok recs /\ In d recs) \/
  (exists name mean std, In d (convert_throughput_to_perf_metrics name mean std)).

(** The column of one field over a list of records, as [r[key] for r in recs]. *)
Definition column (key : string) (recs : list dict) : list (option pyval) :=
  map (fun d => dict_get d key) recs.

(** ** The quantile in the words of the spec *)

(** Linear interpolation between the two nearest ranks of a sorted sequence:
    the ranks are the floor and the ceiling of the virtual index, weighted by
    how far the index is from each. *)
Definition interpolated_quantile (sorted : list Q) (q : Q) : Q :=
  let h := virtual_index (List.length sorted) q in
  let lower := Z.to_nat (Qfloor h) in
  let upper := Z.to_nat (Qceiling h) in
  let t := h - inject_Z (Qfloor h) in
  (1 - t) * nth lower sorted 0 + t * nth upper sorted 0.

(** [v] is the quantile [q] of [samples]: whichever way the samples are put in
    ascending order, interpolating there gives [v]. *)
Definition is_quantile_of (samples : list Q) (q : Q) (v : pyfloat) : Prop :=
  forall sorted,
    Permutation samples sorted -> StronglySorted Qle sorted ->
    float_eq v (Float (interpolated_quantile sorted q)).

(** ** The run order in the words of the spec *)

Inductive transport : Type := HTTP | GRPC | HANDLE.
Inductive metric_kind : Type := LATENCY | THROUGHPUT.

(** One benchmark of the suite: where it goes, what it measures, the name its
    metrics carry and the call that runs it. *)
Record slot : Type := {
  slot_transport : transport;
  slot_kind : metric_kind;
  slot_name : string;
  slot_call : benchmark_call
}.

(** HTTP before gRPC before handle; within a transport, latency before
    throughput; within latency, no payload, then 1 MB, then 10 MB. *)
Definition schedule : list slot :=
  let lat t name call := Build_slot t LATENCY name call in
  let thr t name call := Build_slot t THROUGHPUT name call in
  let mb1 := Payload 1000000%N in
  let mb10 := Payload 10000000%N in
  let http_thr := throughput_call (do_single_http_batch 100%N) 100%N 50%N 5%N in
  let grpc_thr := throughput_call (do_single_grpc_batch 100%N) 100%N 50%N 5%N in
  [ lat HTTP "http" (latency_call (requests_get "http://localhost:8000") 500%N);
    lat HTTP "http_1mb" (latency_call (requests_post "http://localhost:8000" mb1) 500%N);
    lat HTTP "http_10mb" (latency_call (requests_post "http://localhost:8000" mb10) 500%N);
    thr HTTP "http" http_thr;
    thr HTTP "http_100_max_ongoing_requests" http_thr;
    lat GRPC "grpc" (latency_call (stub_call_with_string "localhost:9000" (Payload 0%N)) 500%N);
    lat GRPC "grpc_1mb" (latency_call (stub_call_with_string "localhost:9000" mb1) 500%N);
    lat GRPC "grpc_10mb" (latency_call (stub_call_with_string "localhost:9000" mb10) 500%N);
    thr GRPC "grpc" grpc_thr;
    thr GRPC "grpc_100_max_ongoing_requests" grpc_thr;
    lat HANDLE "handle" (handle_latency_call 500%N None);
    lat HANDLE "handle_1mb" (handle_latency_call 500%N (Some mb1));
    lat HANDLE "handle_10mb" (handle_latency_call 500%N (Some mb10));
    thr HANDLE "handle" (handle_throughput_call 100%N 50%N 5%N);
    thr HANDLE "handle_100_max_ongoing_requests" (handle_throughput_call 100%N 50%N 5%N) ].

(** The part of the schedule the flags select. *)
Definition selected (run_http run_grpc run_handle run_latency run_throughput : bool)
  (b : slot) : bool :=
  match slot_transport b with
  | HTTP => run_http
  | GRPC => run_grpc
  | HANDLE => run_handle
  end &&
  match slot_kind b with
  | LATENCY => run_latency
  | THROUGHPUT => run_throughput
  end.

Definition plan (run_http run_grpc run_handle run_latency run_throughput : bool)
  : list slot :=
  filter (selected run_http run_grpc run_handle run_latency run_throughput) schedule.

(** The reported list that goes with a plan and the results measured for it. *)
Definition report (slots : list slot) (results : list benchmark_result) : list dict :=
  flat_map (fun '(b, res) => records_of (slot_name b) res) (combine slots results).

(** No sampler ever fails in this world. *)
Definition never_fails (w : world) : Prop :=
  (forall tr call, exists samples, latency_outcome w tr call = Ok samples) /\
  (forall tr call, exists mean_std, throughput_outcome w tr call = Ok mean_std).

(** ** One trial of the throughput sampler *)

Module ThroughputSampler.

(** Modelled from the spec: [run_throughput_benchmark] and the batch functions
    belong to [ray.serve._private.benchmarks.common], which is not under src/.
    The spec gives a trial as: launch a batch of [batch_size] concurrent
    [issue()] calls, await the completion of the whole batch, and launch the
    next one as long as the time elapsed since the start of the trial is
    below [trial_runtime]; a batch in flight is left to finish.

    A trial is modelled as a transition system.  The scheduler picks the
    actions; an action that is not enabled does not happen. *)
Record trial : Type := {
  in_flight : nat;      (* issue() calls launched and not completed yet *)
  high_water : nat;     (* the most calls ever in flight at once *)
  completed : nat;      (* issue() calls completed *)
  elapsed : nat;        (* clock ticks since the start of the trial *)
  finished : bool       (* the trial counted its result *)
}.

Inductive action : Type :=
| Launch      (* the sampler launches the next batch *)
| Complete    (* one call in flight completes *)
| Tick        (* the clock advances *)
| Finish.     (* the sampler leaves the loop *)

Definition start : trial :=
  {| in_flight := 0; high_water := 0; completed := 0; elapsed := 0; finished := false |}.

Definition step (batch_size trial_runtime : nat) (a : action) (s : trial) : option trial :=
  match a with
  | Launch =>
      if negb (finished s) && (in_flight s =? 0)%nat && (elapsed s <? trial_runtime)%nat then
        Some {| in_flight := batch_size;
                high_water := Nat.max (high_water s) batch_size;
                completed := completed s;
                elapsed := elapsed s;
                finished := false |}
      else None
  | Complete =>
      match in_flight s with
      | O => None
      | S k =>
          Some {| in_flight := k;
                  high_water := high_water s;
                  completed := S (completed s);
                  elapsed := elapsed s;
                  finished := finished s |}
      end
  | Tick =>
      Some {| in_flight := in_flight s;
              high_water := high_water s;
              completed := completed s;
              elapsed := S (elapsed s);
              finished := finished s |}
  | Finish =>
      if negb (finished s) && (in_flight s =? 0)%nat && negb (elapsed s <? trial_runtime)%nat then
        Some {| in_flight := 0;
                high_water := high_water s;
                completed := completed s;
                elapsed := elapsed s;
                finished := true |}
      else None
  end.

(** Run the actions in order; [None] when one of them is not enabled. *)
Fixpoint run (batch_size trial_runtime : nat) (acts : list action) (s : trial)
  : option trial :=
  match acts with
  | [] => Some s
  | a :: acts' =>
      match step batch_size trial_runtime a s with
      | Some s' => run batch_size trial_runtime acts' s'
      | None => None
      end
  end.

(** How many batches the actions launch. *)
Definition launches (acts : list action) : nat :=
  List.length (filter (fun a => match a with Launch => true | _ => false end) acts).

End ThroughputSampler.

(** A world whose samplers work until [n] benchmarks have run and fail from
    then on. *)
Definition failing_after (n : nat) (samples : Series) (mean std : pyfloat) : world :=
  {| latency_outcome := fun tr _ =>
       if (List.length (benchmarks_of tr) <? n)%nat then Ok samples
       else Raise (RuntimeError "request failed");
     throughput_outcome := fun tr _ =>
       if (List.length (benchmarks_of tr) <? n)%nat then Ok (mean, std)
       else Raise (RuntimeError "request failed") |}.

(** ** More ways to read a trace *)

(** The events through which results leave the program. *)
Definition is_report_event (e : event) : bool :=
  match e with
  | logging_info _ | save_test_results _ _ => true
  | _ => false
  end.

(** The metric names of a list of records, as
    [[r["perf_metric_name"] for r in recs]]. *)
Definition names_of (recs : list dict) : list string :=
  flat_map
    (fun d =>
       match dict_get d "perf_metric_name" with
       | Some (VStr name) => [name]
       | _ => []
       end)
    recs.

(** The float values of a list of records. *)
Definition values_of (recs : list dict) : list pyfloat :=
  flat_map
    (fun d =>
       match dict_get d "perf_metric_value" with
       | Some (VFloat value) => [value]
       | _ => []
       end)
    recs.

(** No string occurs twice. *)
Fixpoint all_distinct (l : list string) : bool :=
  match l with
  | [] => true
  | x :: l' => negb (existsb (String.eqb x) l') && all_distinct l'
  end.

(** Each benchmark of a trace with the application that [serve.run] deployed
    last before it, if any. *)
Fixpoint targets_of (current : option application) (tr : list event)
  : list (option application * benchmark_call) :=
  match tr with
  | [] => []
  | serve_run app :: tr' => targets_of (Some app) tr'
  | benchmark_run call _ :: tr' => (current, call) :: targets_of current tr'
  | _ :: tr' => targets_of current tr'
  end.

(** The application answers the calls of the benchmark: HTTP requests go to
    [Noop], [stub.call_with_string] goes to [GrpcDeployment], which defines
    it, and the handle benchmarks run inside a [Benchmarker] bound to
    [Noop]. *)
Definition serves (app : option application) (call : benchmark_call) : bool :=
  match app, call with
  | Some (Noop_bind _), latency_call (requests_get _) _
  | Some (Noop_bind _), latency_call (requests_post _ _) _
  | Some (Noop_bind _), throughput_call (do_single_http_batch _) _ _ _
  | Some (GrpcDeployment_bind _), latency_call (stub_call_with_string _ _) _
  | Some (GrpcDeployment_bind _), throughput_call (do_single_grpc_batch _) _ _ _
  | Some (Benchmarker_bind _ (Noop_bind _)), handle_latency_call _ _
  | Some (Benchmarker_bind _ (Noop_bind _)), handle_throughput_call _ _ _ => true
  | _, _ => false
  end.

(** Every deployment of the application has [max_ongoing_requests] set to
    [limit] ([None]: left at its default). *)
Fixpoint limited_to (limit : option N) (app : application) : bool :=
  let same (m : option N) :=
    match limit, m with
    | None, None => true
    | Some a, Some b => N.eqb a b
    | _, _ => false
    end in
  match app with
  | Noop_bind m => same m
  | GrpcDeployment_bind m => same m
  | Benchmarker_bind m downstream => same m && limited_to limit downstream
  end.

(** [s.endswith(suffix)] *)
Definition ends_with (suffix s : string) : bool :=
  let n := String.length suffix in
  let m := String.length s in
  (n <=? m)%nat && String.eqb (substring (m - n) n s) suffix.

(** The metric names a benchmark of the schedule reports under. *)
Definition slot_metric_names (b : slot) : list string :=
  match slot_kind b with
  | LATENCY =>
      [ (slot_name b ++ "_p50_latency")%string; (slot_name b ++ "_p90_latency")%string;
        (slot_name b ++ "_p95_latency")%string; (slot_name b ++ "_p99_latency")%string ]
  | THROUGHPUT =>
      [ (slot_name b ++ "_avg_rps")%string; (slot_name b ++ "_throughput_std")%string ]
  end.

(** The size of the payload a latency benchmark sends with each request; a
    request without a payload counts as empty. *)
Definition payload_size_of (call : benchmark_call) : N :=
  let size (p : payload) := match p with Payload n => n end in
  match call with
  | latency_call (requests_get _) _ => 0
  | latency_call (requests_post _ data) _ => size data
  | latency_call (stub_call_with_string _ data) _ => size data
  | handle_latency_call _ (Some data) => size data
  | handle_latency_call _ None => 0
  | throughput_call _ _ _ _ => 0
  | handle_throughput_call _ _ _ => 0
  end.

(** The benchmark is set up with [num_requests] requests if it measures
    latency, and with these batch size, trial count and trial runtime if it
    measures throughput, the multiplier being the batch size of its batch
    function. *)
Definition configured (num_requests batch_size num_trials trial_runtime : N)
  (call : benchmark_call) : bool :=
  match call with
  | latency_call _ n => N.eqb n num_requests
  | handle_latency_call n _ => N.eqb n num_requests
  | throughput_call (do_single_http_batch b) m t r
  | throughput_call (do_single_grpc_batch b) m t r =>
      N.eqb m b && N.eqb b batch_size && N.eqb t num_trials && N.eqb r trial_runtime
  | handle_throughput_call b t r =>
      N.eqb b batch_size && N.eqb t num_trials && N.eqb r trial_runtime
  end.

(** * Properties *)

(** ** Sorted lists of rationals *)

Lemma sort_strongly_sorted (l : list Q) : StronglySorted Qle (QSort.sort l).
Proof.
  assert (T : Relations_1.Transitive (fun x y => is_true (QOrder.leb x y))).
  { intros x y z Hxy Hyz. unfold is_true, QOrder.leb in *.
    rewrite Qle_bool_iff in *. eapply Qle_trans; eassumption. }
  pose proof (QSort.StronglySorted_sort l T) as H.
  induction H as [| a l' _ IH Ha]; constructor.
  - exact IH.
  - eapply Forall_impl; [| exact Ha].
    intros b Hb. apply Qle_bool_iff. exact Hb.
Qed.

Lemma sort_permutation (l : list Q) : Permutation l (QSort.sort l).
Proof. apply QSort.Permuted_sort. Qed.

Lemma sort_length (l : list Q) : List.length (QSort.sort l) = List.length l.
Proof. symmetry. apply Permutation_length, sort_permutation. Qed.

Lemma sort_nonempty (l : list Q) : l <> [] -> QSort.sort l <> [].
Proof.
  intros Hl Hs. apply Hl. apply length_zero_iff_nil.
  rewrite <- sort_length, Hs. reflexivity.
Qed.

(** In a sorted list a later rank holds a value at least as large. *)
Lemma sorted_nth_le (l : list Q) :
  StronglySorted Qle l ->
  forall i j, (i <= j)%nat -> (j < List.length l)%nat -> nth i l 0 <= nth j l 0.
Proof.
  induction 1 as [| a l Hs IH Ha]; intros i j Hij Hj; simpl in Hj.
  - lia.
  - destruct j as [| j].
    + replace i with 0%nat by lia. apply Qle_refl.
    + destruct i as [| i]; simpl.
      * rewrite Forall_forall in Ha. apply Ha. apply nth_In. lia.
      * apply IH; lia.
Qed.

(** How many values of [l] are at most [v] does not depend on their order. *)
Lemma count_le_permutation (v : Q) (l1 l2 : list Q) :
  Permutation l1 l2 ->
  List.length (filter (fun x => Qle_bool x v) l1) =
  List.length (filter (fun x => Qle_bool x v) l2).
Proof.
  induction 1 as [| x l1 l2 _ IH | x y l | l1 l2 l3 _ IH12 _ IH23]; simpl.
  - reflexivity.
  - destruct (Qle_bool x v); simpl; congruence.
  - destruct (Qle_bool x v), (Qle_bool y v); reflexivity.
  - congruence.
Qed.

(** In a sorted list more than [i] values are at most the one of rank [i]. *)
Lemma count_le_rank (l : list Q) :
  StronglySorted Qle l ->
  forall i, (i < List.length l)%nat ->
  (i < List.length (filter (fun x => Qle_bool x (nth i l 0%Q)) l))%nat.
Proof.
  induction 1 as [| a l Hs IH Ha]; intros i Hi; simpl in Hi.
  - lia.
  - destruct i as [| i]; simpl.
    + replace (Qle_bool a a) with true; [simpl; lia |].
      symmetry. apply Qle_bool_iff, Qle_refl.
    + replace (Qle_bool a (nth i l 0)) with true.
      * simpl. apply -> Nat.succ_lt_mono. apply IH. lia.
      * symmetry. apply Qle_bool_iff.
        rewrite Forall_forall in Ha. apply Ha, nth_In. lia.
Qed.

(** In a sorted list at most [i] values lie strictly below the one of rank [i]. *)
Lemma count_le_below_rank (v : Q) (l : list Q) :
  StronglySorted Qle l ->
  forall i, v < nth i l 0 ->
  (List.length (filter (fun x => Qle_bool x v) l) <= i)%nat.
Proof.
  induction 1 as [| a l Hs IH Ha]; intros i Hv; simpl.
  - lia.
  - destruct i as [| i]; simpl in Hv.
    + assert (E : filter (fun x => Qle_bool x v) (a :: l) = []).
      { clear IH. assert (F : Forall (fun x => v < x) (a :: l)).
        { constructor; [exact Hv |].
          eapply Forall_impl; [| exact Ha]. intros b Hb.
          eapply Qlt_le_trans; eassumption. }
        clear Ha Hs Hv. induction F as [| x l' Hx _ IHF]; [reflexivity |].
        simpl. destruct (Qle_bool x v) eqn:E; [| exact IHF].
        apply Qle_bool_iff in E. exfalso. eapply Qlt_irrefl, Qlt_le_trans; eassumption. }
      simpl in E. rewrite E. simpl. lia.
    + specialize (IH i Hv). destruct (Qle_bool a v); simpl; lia.
Qed.

(** Two ascending arrangements of the same values agree rank by rank. *)
Lemma sorted_permutation_nth (l1 l2 : list Q) :
  StronglySorted Qle l1 -> StronglySorted Qle l2 -> Permutation l1 l2 ->
  forall i, (i < List.length l1)%nat -> nth i l1 0 == nth i l2 0.
Proof.
  intros S1 S2 P i Hi.
  assert (Hi2 : (i < List.length l2)%nat) by (rewrite <- (Permutation_length P); exact Hi).
  apply Qle_antisym; apply Qnot_lt_le; intros Hlt.
  - pose proof (count_le_rank l2 S2 i Hi2) as A.
    pose proof (count_le_below_rank _ l1 S1 i Hlt) as B.
    rewrite (count_le_permutation _ _ _ P) in B. lia.
  - pose proof (count_le_rank l1 S1 i Hi) as A.
    pose proof (count_le_below_rank _ l2 S2 i Hlt) as B.
    rewrite <- (count_le_permutation _ _ _ P) in B. lia.
Qed.

(** ** Ranks *)

(** For a quantile in [0, 1] the lower rank is a valid index and the weight is
    a fraction. *)
Lemma rank_bounds (n : nat) (q : Q) :
  (0 < n)%nat -> 0 <= q -> q <= 1 ->
  let h := virtual_index n q in
  (Z.to_nat (Qfloor h) < n)%nat /\
  (0 <= Qfloor h)%Z /\
  0 <= h - inject_Z (Qfloor h) /\ h - inject_Z (Qfloor h) < 1 /\
  h <= inject_Z (Z.of_nat n - 1).
Proof.
  intros Hn Hq0 Hq1 h.
  assert (HN : 0 <= inject_Z (Z.of_nat n) - 1).
  { assert (1 <= inject_Z (Z.of_nat n)); [| lra].
    change 1 with (inject_Z 1). rewrite <- Zle_Qle. lia. }
  assert (Hh0 : 0 <= h).
  { unfold h, virtual_index. apply Qmult_le_0_compat; assumption. }
  assert (Hh1 : h <= inject_Z (Z.of_nat n - 1)).
  { unfold h, virtual_index.
    unfold Z.sub. rewrite inject_Z_plus. change (inject_Z (- (1))) with (- (1)).
    nra. }
  assert (Hf0 : (0 <= Qfloor h)%Z).
  { change 0%Z with (Qfloor 0). apply Qfloor_resp_le, Hh0. }
  assert (Hf1 : (Qfloor h <= Z.of_nat n - 1)%Z).
  { rewrite <- (Qfloor_Z (Z.of_nat n - 1)). apply Qfloor_resp_le, Hh1. }
  pose proof (Qfloor_le h) as Hfl.
  pose proof (Qlt_floor h) as Hlf.
  rewrite inject_Z_plus in Hlf. change (inject_Z 1) with 1 in Hlf.
  repeat split; try lra; lia.
Qed.

(** ** The quantile of a sorted sequence *)

(** Interpolating between two ranks stays between their values. *)
Lemma lerp_between (a b gamma : Q) :
  a <= b -> 0 <= gamma -> gamma <= 1 -> a <= lerp a b gamma /\ lerp a b gamma <= b.
Proof. unfold lerp. intros Hab H0 H1. split; nra. Qed.

Lemma lerp_monotone (a b g1 g2 : Q) :
  a <= b -> g1 <= g2 -> lerp a b g1 <= lerp a b g2.
Proof. unfold lerp. intros Hab Hg. nra. Qed.

(** A larger quantile of a sorted sequence is a larger value. *)
Lemma quantile_of_sorted_monotone (sorted : list Q) (q1 q2 : Q) :
  StronglySorted Qle sorted -> sorted <> [] ->
  0 <= q1 -> q1 <= q2 -> q2 <= 1 ->
  float_le (quantile_of_sorted sorted q1) (quantile_of_sorted sorted q2).
Proof.
  intros Hs Hne H0 H12 H1.
  destruct sorted as [| x0 rest]; [congruence |].
  unfold quantile_of_sorted, float_le.
  set (l := x0 :: rest) in *. set (n := List.length l).
  assert (Hn : (0 < n)%nat) by (unfold n, l; simpl; lia).
  destruct (rank_bounds n q1 Hn H0 (Qle_trans _ _ _ H12 H1)) as (Hi1 & Hf1 & Hg1 & Hg1' & _).
  destruct (rank_bounds n q2 Hn (Qle_trans _ _ _ H0 H12) H1) as (Hi2 & Hf2 & Hg2 & Hg2' & _).
  assert (Hh : virtual_index n q1 <= virtual_index n q2).
  { unfold virtual_index.
    assert (1 <= inject_Z (Z.of_nat n)); [| nra].
    change 1 with (inject_Z 1). rewrite <- Zle_Qle. lia. }
  pose proof (Qfloor_resp_le _ _ Hh) as Hff.
  set (h1 := virtual_index n q1) in *. set (h2 := virtual_index n q2) in *.
  set (i1 := Z.to_nat (Qfloor h1)) in *. set (i2 := Z.to_nat (Qfloor h2)) in *.
  assert (Hab1 : nth i1 l 0 <= nth (Nat.min (S i1) (n - 1)) l 0)
    by (apply sorted_nth_le; [exact Hs | lia | fold n; lia]).
  assert (Hab2 : nth i2 l 0 <= nth (Nat.min (S i2) (n - 1)) l 0)
    by (apply sorted_nth_le; [exact Hs | lia | fold n; lia]).
  destruct (Z.eq_dec (Qfloor h1) (Qfloor h2)) as [E | NE].
  - (* both quantiles fall between the same two ranks *)
    assert (Ei : i1 = i2) by (unfold i1, i2; congruence).
    rewrite <- Ei, <- E. apply lerp_monotone; [exact Hab1 | lra].
  - (* a full rank lies between them *)
    assert (Hlt : (S i1 <= i2)%nat) by (unfold i1, i2; lia).
    apply Qle_trans with (nth (Nat.min (S i1) (n - 1)) l 0).
    + apply lerp_between; [exact Hab1 | exact Hg1 | lra].
    + apply Qle_trans with (nth i2 l 0).
      * apply sorted_nth_le; [exact Hs | lia | fold n; lia].
      * apply lerp_between; [exact Hab2 | exact Hg2 | lra].
Qed.

(** Above a virtual index that is not a whole number, the nearest rank is the
    one after its floor. *)
Lemma ceiling_after_floor (h : Q) :
  inject_Z (Qfloor h) < h -> Qceiling h = (Qfloor h + 1)%Z.
Proof.
  intros Hlt.
  pose proof (Qle_ceiling h) as Hc. pose proof (Qceiling_lt h) as Hc'.
  pose proof (Qlt_floor h) as Hf.
  assert (A : (Qfloor h < Qceiling h)%Z) by (rewrite Zlt_Qlt; lra).
  assert (B : (Qceiling h - 1 < Qfloor h + 1)%Z) by (rewrite Zlt_Qlt; lra).
  lia.
Qed.

(** What numpy computes on one ascending arrangement is the interpolation
    between the two nearest ranks of any ascending arrangement. *)
Lemma quantile_of_sorted_interpolates (sorted sorted' : list Q) (q : Q) :
  StronglySorted Qle sorted -> StronglySorted Qle sorted' ->
  Permutation sorted sorted' -> sorted <> [] ->
  0 <= q -> q <= 1 ->
  float_eq (quantile_of_sorted sorted q) (Float (interpolated_quantile sorted' q)).
Proof.
  intros Hs Hs' P Hne H0 H1.
  destruct sorted as [| x0 rest]; [congruence |].
  unfold quantile_of_sorted, interpolated_quantile, float_eq, lerp.
  rewrite <- (Permutation_length P).
  set (l := x0 :: rest) in *. set (n := List.length l).
  assert (Hn : (0 < n)%nat) by (unfold n, l; simpl; lia).
  destruct (rank_bounds n q Hn H0 H1) as (Hi & Hf & Hg & Hg' & Hh).
  set (h := virtual_index n q) in *.
  set (i := Z.to_nat (Qfloor h)) in *.
  rewrite <- (sorted_permutation_nth l sorted' Hs Hs' P i Hi).
  destruct (Qeq_dec (inject_Z (Qfloor h)) h) as [E | NE].
  - (* the index is a whole number: the value of that rank *)
    setoid_replace (h - inject_Z (Qfloor h)) with 0 by lra. ring.
  - (* between two ranks *)
    assert (Hlt : inject_Z (Qfloor h) < h) by lra.
    rewrite (ceiling_after_floor h Hlt).
    assert (Hi' : (S i < n)%nat).
    { assert (A : (Qfloor h < Z.of_nat n - 1)%Z) by (rewrite Zlt_Qlt; lra).
      unfold i. lia. }
    replace (Z.to_nat (Qfloor h + 1)) with (S i) by (unfold i; lia).
    replace (Nat.min (S i) (n - 1)) with (S i) by lia.
    rewrite <- (sorted_permutation_nth l sorted' Hs Hs' P (S i) Hi').
    ring.
Qed.

(** ** The metric reporter *)

(** The four percentiles the reporter asks for are valid, so no call raises
    and the Series comes back as it went in. *)
Lemma convert_latencies_runs (name : string) (samples : Series) :
  convert_latencies_to_perf_metrics name samples =
  (Ok [ [ ("perf_metric_name", VStr (name ++ "_p50_latency")%string);
          ("perf_metric_value", VFloat (quantile_of_sorted (QSort.sort samples) (1 # 2)));
          ("perf_metric_type", VStr "LATENCY") ];
        [ ("perf_metric_name", VStr (name ++ "_p90_latency")%string);
          ("perf_metric_value", VFloat (quantile_of_sorted (QSort.sort samples) (9 # 10)));
          ("perf_metric_type", VStr "LATENCY") ];
        [ ("perf_metric_name", VStr (name ++ "_p95_latency")%string);
          ("perf_metric_value", VFloat (quantile_of_sorted (QSort.sort samples) (19 # 20)));
          ("perf_metric_type", VStr "LATENCY") ];
        [ ("perf_metric_name", VStr (name ++ "_p99_latency")%string);
          ("perf_metric_value", VFloat (quantile_of_sorted (QSort.sort samples) (99 # 100)));
          ("perf_metric_type", VStr "LATENCY") ] ],
   samples).
Proof. reflexivity. Qed.

Lemma sorted_quantile_is_quantile (samples : Series) (q : Q) :
  samples <> [] -> 0 <= q -> q <= 1 ->
  is_quantile_of samples q (quantile_of_sorted (QSort.sort samples) q).
Proof.
  intros Hne H0 H1 sorted P S.
  apply quantile_of_sorted_interpolates; try assumption.
  - apply sort_strongly_sorted.
  - eapply Permutation_trans; [apply Permutation_sym, sort_permutation | exact P].
  - apply sort_nonempty, Hne.
Qed.

(** C1. For every name and every non-empty sample sequence,
    [convert_latencies_to_perf_metrics] returns exactly four records, in the
    order p50, p90, p95, p99, each of kind LATENCY and named
    [name_p50_latency] to [name_p99_latency]; each value is the quantile of
    the samples obtained by linear interpolation between the two nearest
    ranks of the samples in ascending order. *)
Theorem latencies_to_metrics_quantiles (name : string) (samples : Series) :
  samples <> [] ->
  exists p50 p90 p95 p99,
    fst (convert_latencies_to_perf_metrics name samples) =
      Ok [ [ ("perf_metric_name", VStr (name ++ "_p50_latency")%string);
             ("perf_metric_value", VFloat p50);
             ("perf_metric_type", VStr "LATENCY") ];
           [ ("perf_metric_name", VStr (name ++ "_p90_latency")%string);
             ("perf_metric_value", VFloat p90);
             ("perf_metric_type", VStr "LATENCY") ];
           [ ("perf_metric_name", VStr (name ++ "_p95_latency")%string);
             ("perf_metric_value", VFloat p95);
             ("perf_metric_type", VStr "LATENCY") ];
           [ ("perf_metric_name", VStr (name ++ "_p99_latency")%string);
             ("perf_metric_value", VFloat p99);
             ("perf_metric_type", VStr "LATENCY") ] ] /\
    is_quantile_of samples (1 # 2) p50 /\
    is_quantile_of samples (9 # 10) p90 /\
    is_quantile_of samples (19 # 20) p95 /\
    is_quantile_of samples (99 # 100) p99.
Proof.
  intros Hne. rewrite convert_latencies_runs. simpl fst.
  do 4 eexists. split; [reflexivity |].
  repeat split; apply sorted_quantile_is_quantile; try exact Hne; lra.
Qed.

Lemma latencies_to_metrics_quantiles_witness :
  [3; 1; 2; 10; 7] <> [] /\
  exists p50 p90 p95 p99,
    fst (convert_latencies_to_perf_metrics "http" [3; 1; 2; 10; 7]) =
      Ok [ [ ("perf_metric_name", VStr "http_p50_latency");
             ("perf_metric_value", VFloat p50);
             ("perf_metric_type", VStr "LATENCY") ];
           [ ("perf_metric_name", VStr "http_p90_latency");
             ("perf_metric_value", VFloat p90);
             ("perf_metric_type", VStr "LATENCY") ];
           [ ("perf_metric_name", VStr "http_p95_latency");
             ("perf_metric_value", VFloat p95);
             ("perf_metric_type", VStr "LATENCY") ];
           [ ("perf_metric_name", VStr "http_p99_latency");
             ("perf_metric_value", VFloat p99);
             ("perf_metric_type", VStr "LATENCY") ] ] /\
    is_quantile_of [3; 1; 2; 10; 7] (1 # 2) p50 /\
    is_quantile_of [3; 1; 2; 10; 7] (9 # 10) p90 /\
    is_quantile_of [3; 1; 2; 10; 7] (19 # 20) p95 /\
    is_quantile_of [3; 1; 2; 10; 7] (99 # 100) p99.
Proof.
  split; [discriminate |].
  apply (latencies_to_metrics_quantiles "http" [3; 1; 2; 10; 7]). discriminate.
Defined.

(** The values of the running example: 3, 8.8, 9.4 and 9.88. *)
Example latencies_to_metrics_example :
  column "perf_metric_value"
    (match fst (convert_latencies_to_perf_metrics "http" [3; 1; 2; 10; 7]) with
     | Ok recs => recs
     | Raise _ => []
     end) =
  [ Some (VFloat (Float (6 # 2))); Some (VFloat (Float 8.8));
    Some (VFloat (Float (188 # 20))); Some (VFloat (Float 9.88)) ].
Proof. vm_compute. reflexivity. Qed.

(** C2. For every name and every pair of floats [mean] and [std],
    [convert_throughput_to_perf_metrics] returns exactly two records, both of
    kind THROUGHPUT: [name_avg_rps] with value [mean], then
    [name_throughput_std] with value [std].  In particular
    [("http", 120.0, 5.0)] gives [http_avg_rps] = 120.0 and
    [http_throughput_std] = 5.0, in that order. *)
Theorem throughput_to_metrics_records :
  (forall (name : string) (mean std : pyfloat),
      let recs := convert_throughput_to_perf_metrics name mean std in
      List.length recs = 2%nat /\
      column "perf_metric_name" recs =
        [Some (VStr (name ++ "_avg_rps")%string);
         Some (VStr (name ++ "_throughput_std")%string)] /\
      column "perf_metric_value" recs = [Some (VFloat mean); Some (VFloat std)] /\
      column "perf_metric_type" recs = [Some (VStr "THROUGHPUT"); Some (VStr "THROUGHPUT")] /\
      Forall (fun d => dict_keys d =
                       ["perf_metric_name"; "perf_metric_value"; "perf_metric_type"]) recs) /\
  convert_throughput_to_perf_metrics "http" (Float 120) (Float 5) =
    [ [ ("perf_metric_name", VStr "http_avg_rps");
        ("perf_metric_value", VFloat (Float 120));
        ("perf_metric_type", VStr "THROUGHPUT") ];
      [ ("perf_metric_name", VStr "http_throughput_std");
        ("perf_metric_value", VFloat (Float 5));
        ("perf_metric_type", VStr "THROUGHPUT") ] ].
Proof.
  split.
  - intros name mean std recs. subst recs.
    unfold convert_throughput_to_perf_metrics, column, dict_keys. simpl.
    repeat split; try reflexivity.
    repeat constructor.
  - reflexivity.
Qed.

(** The four quantiles of a non-empty sample are ordered. *)
Lemma sorted_quantiles_ordered (samples : Series) :
  samples <> [] ->
  let s := QSort.sort samples in
  float_le (quantile_of_sorted s (1 # 2)) (quantile_of_sorted s (9 # 10)) /\
  float_le (quantile_of_sorted s (9 # 10)) (quantile_of_sorted s (19 # 20)) /\
  float_le (quantile_of_sorted s (19 # 20)) (quantile_of_sorted s (99 # 100)).
Proof.
  intros Hne s.
  repeat split;
    (apply quantile_of_sorted_monotone;
     [apply sort_strongly_sorted | apply sort_nonempty, Hne | lra | lra | lra]).
Qed.

(** C3. Quantile monotonicity: for every non-empty sample sequence the four
    values that [convert_latencies_to_perf_metrics] reports satisfy
    p50 <= p90 <= p95 <= p99. *)
Theorem quantile_monotonicity (name : string) (samples : Series) :
  samples <> [] ->
  exists recs p50 p90 p95 p99,
    fst (convert_latencies_to_perf_metrics name samples) = Ok recs /\
    column "perf_metric_value" recs =
      [Some (VFloat p50); Some (VFloat p90); Some (VFloat p95); Some (VFloat p99)] /\
    float_le p50 p90 /\ float_le p90 p95 /\ float_le p95 p99.
Proof.
  intros Hne. rewrite convert_latencies_runs. cbn [fst].
  eexists. do 4 eexists. split; [reflexivity |].
  split; [reflexivity |].
  exact (sorted_quantiles_ordered samples Hne).
Qed.

Lemma quantile_monotonicity_witness :
  [3; 1; 2; 10; 7] <> [] /\
  exists recs p50 p90 p95 p99,
    fst (convert_latencies_to_perf_metrics "grpc" [3; 1; 2; 10; 7]) = Ok recs /\
    column "perf_metric_value" recs =
      [Some (VFloat p50); Some (VFloat p90); Some (VFloat p95); Some (VFloat p99)] /\
    float_le p50 p90 /\ float_le p90 p95 /\ float_le p95 p99.
Proof.
  split; [discriminate |].
  apply (quantile_monotonicity "grpc" [3; 1; 2; 10; 7]). discriminate.
Defined.

(** C7. The reporter functions are pure.  [convert_latencies_to_perf_metrics]
    hands the Series back with the same elements in the same order, as does
    every single [quantile] call, whether it raises or not; and run from the
    driver, neither reporter function adds an event to the trace. *)
Theorem reporter_is_pure :
  (forall (name : string) (samples : Series),
      snd (convert_latencies_to_perf_metrics name samples) = samples) /\
  (forall (q : Q) (samples : Series), snd (Series_quantile q samples) = samples) /\
  (forall (perf_metrics : list dict) (name : string) (samples : Series) (tr : list event),
      snd (extend_latencies perf_metrics name samples tr) = tr) /\
  (forall (perf_metrics : list dict) (name : string) (mean_std : pyfloat * pyfloat)
          (tr : list event),
      snd (extend_throughput perf_metrics name mean_std tr) = tr).
Proof.
  split; [| split; [| split]].
  - intros name samples. rewrite convert_latencies_runs. reflexivity.
  - intros q samples. unfold Series_quantile.
    destruct (Qle_bool 0 q && Qle_bool q 1); reflexivity.
  - intros perf_metrics name samples tr.
    unfold extend_latencies, bind, call_on, ret.
    destruct (fst (convert_latencies_to_perf_metrics name samples)); reflexivity.
  - intros perf_metrics name mean_std tr. reflexivity.
Qed.

(** Every quantile of a constant sequence is the constant. *)
Lemma quantile_of_constant (l : list Q) (d q : Q) :
  l <> [] -> Forall (fun x => x == d) l -> 0 <= q -> q <= 1 ->
  float_eq (quantile_of_sorted l q) (Float d).
Proof.
  intros Hne Hd H0 H1.
  destruct l as [| x0 rest]; [congruence |].
  unfold quantile_of_sorted, float_eq, lerp.
  set (l := x0 :: rest) in *. set (n := List.length l).
  assert (Hn : (0 < n)%nat) by (unfold n, l; simpl; lia).
  destruct (rank_bounds n q Hn H0 H1) as (Hi & _).
  assert (Hnth : forall i, (i < n)%nat -> nth i l 0 == d).
  { intros i Hlt. rewrite Forall_forall in Hd. apply Hd, nth_In, Hlt. }
  rewrite (Hnth (Z.to_nat (Qfloor (virtual_index n q))) Hi).
  rewrite (Hnth (Nat.min (S (Z.to_nat (Qfloor (virtual_index n q)))) (n - 1)))
    by lia.
  ring.
Qed.

(** C8. When all latency samples equal the same value [d], the four quantile
    values that [convert_latencies_to_perf_metrics] reports all equal [d]. *)
Theorem constant_samples_quantiles (name : string) (samples : Series) (d : Q) :
  samples <> [] -> Forall (fun x => x == d) samples ->
  exists recs p50 p90 p95 p99,
    fst (convert_latencies_to_perf_metrics name samples) = Ok recs /\
    column "perf_metric_value" recs =
      [Some (VFloat p50); Some (VFloat p90); Some (VFloat p95); Some (VFloat p99)] /\
    float_eq p50 (Float d) /\ float_eq p90 (Float d) /\
    float_eq p95 (Float d) /\ float_eq p99 (Float d).
Proof.
  intros Hne Hd. rewrite convert_latencies_runs. cbn [fst].
  eexists. do 4 eexists. split; [reflexivity |].
  split; [reflexivity |].
  assert (Hs : Forall (fun x => x == d) (QSort.sort samples)).
  { rewrite Forall_forall in *. intros x Hx. apply Hd.
    eapply Permutation_in; [apply Permutation_sym, sort_permutation | exact Hx]. }
  pose proof (sort_nonempty samples Hne) as Hne'.
  split; [| split; [| split]]; apply quantile_of_constant; try assumption; lra.
Qed.

Lemma constant_samples_quantiles_witness :
  [7 # 2; 7 # 2; 14 # 4] <> [] /\
  Forall (fun x => x == 7 # 2) [7 # 2; 7 # 2; 14 # 4] /\
  exists recs p50 p90 p95 p99,
    fst (convert_latencies_to_perf_metrics "handle" [7 # 2; 7 # 2; 14 # 4]) = Ok recs /\
    column "perf_metric_value" recs =
      [Some (VFloat p50); Some (VFloat p90); Some (VFloat p95); Some (VFloat p99)] /\
    float_eq p50 (Float (7 # 2)) /\ float_eq p90 (Float (7 # 2)) /\
    float_eq p95 (Float (7 # 2)) /\ float_eq p99 (Float (7 # 2)).
Proof.
  assert (H : Forall (fun x => x == 7 # 2) [7 # 2; 7 # 2; 14 # 4])
    by (repeat constructor; reflexivity).
  split; [discriminate |]. split; [exact H |].
  apply (constant_samples_quantiles "handle" [7 # 2; 7 # 2; 14 # 4] (7 # 2)).
  - discriminate.
  - exact H.
Defined.

(** C10. On an empty sample sequence [convert_latencies_to_perf_metrics] does
    not raise: it returns the four records of kind LATENCY with the standard
    names, and each value is NaN. *)
Theorem empty_samples_give_nan (name : string) :
  convert_latencies_to_perf_metrics name [] =
  (Ok [ [ ("perf_metric_name", VStr (name ++ "_p50_latency")%string);
          ("perf_metric_value", VFloat NaN);
          ("perf_metric_type", VStr "LATENCY") ];
        [ ("perf_metric_name", VStr (name ++ "_p90_latency")%string);
          ("perf_metric_value", VFloat NaN);
          ("perf_metric_type", VStr "LATENCY") ];
        [ ("perf_metric_name", VStr (name ++ "_p95_latency")%string);
          ("perf_metric_value", VFloat NaN);
          ("perf_metric_type", VStr "LATENCY") ];
        [ ("perf_metric_name", VStr (name ++ "_p99_latency")%string);
          ("perf_metric_value", VFloat NaN);
          ("perf_metric_type", VStr "LATENCY") ] ],
   []).
Proof.
  rewrite convert_latencies_runs.
  change (QSort.sort []) with (@nil Q).
  reflexivity.
Qed.

(** ** Running the driver *)

Lemma extend_latencies_runs (perf_metrics : list dict) (name : string)
  (samples : Series) (tr : list event) :
  extend_latencies perf_metrics name samples tr =
  (Ok (perf_metrics ++ records_of name (latencies_of samples)), tr).
Proof.
  unfold extend_latencies, bind, call_on, ret, records_of.
  rewrite convert_latencies_runs. reflexivity.
Qed.

Lemma extend_throughput_runs (perf_metrics : list dict) (name : string)
  (mean_std : pyfloat * pyfloat) (tr : list event) :
  extend_throughput perf_metrics name mean_std tr =
  (Ok (perf_metrics ++ records_of name (mean_std_of (fst mean_std) (snd mean_std))), tr).
Proof. reflexivity. Qed.

(** An awaited sampler either hands back its result and leaves one event, or
    raises and leaves none. *)
Lemma await_latencies_cases (w : world) (call : benchmark_call) (tr : list event) :
  (exists samples,
      await_latencies w call tr =
      (Ok samples, tr ++ [benchmark_run call (latencies_of samples)])) \/
  (exists e, await_latencies w call tr = (Raise e, tr)).
Proof.
  unfold await_latencies. destruct (latency_outcome w tr call); eauto.
Qed.

Lemma await_mean_std_cases (w : world) (call : benchmark_call) (tr : list event) :
  (exists mean std,
      await_mean_std w call tr =
      (Ok (mean, std), tr ++ [benchmark_run call (mean_std_of mean std)])) \/
  (exists e, await_mean_std w call tr = (Raise e, tr)).
Proof.
  unfold await_mean_std.
  destruct (throughput_outcome w tr call) as [[mean std] | e]; eauto.
Qed.

Lemma await_latencies_succeeds (w : world) (call : benchmark_call) (tr : list event) :
  never_fails w ->
  exists samples,
    await_latencies w call tr =
    (Ok samples, tr ++ [benchmark_run call (latencies_of samples)]).
Proof.
  intros [H _]. destruct (H tr call) as [samples E].
  exists samples. unfold await_latencies. rewrite E. reflexivity.
Qed.

Lemma await_mean_std_succeeds (w : world) (call : benchmark_call) (tr : list event) :
  never_fails w ->
  exists mean std,
    await_mean_std w call tr =
    (Ok (mean, std), tr ++ [benchmark_run call (mean_std_of mean std)]).
Proof.
  intros [_ H]. destruct (H tr call) as [[mean std] E].
  exists mean, std. unfold await_mean_std. rewrite E. reflexivity.
Qed.

Ltac unfold_driver :=
  unfold main, _main, run_latency_benchmark, run_throughput_benchmark,
    h_run_latency_benchmark_remote, h_run_throughput_benchmark_remote;
  unfold bind, ret, emit.

(** Run the driver symbolically from a concrete trace: a sampler that raises
    ends the run, which the goal rules out. *)
Ltac run_driver :=
  unfold_driver;
  repeat
    (cbv beta iota; cbn [app];
     match goal with
     | |- context [extend_latencies ?pm ?n ?l ?tr] =>
         rewrite (extend_latencies_runs pm n l tr)
     | |- context [extend_throughput ?pm ?n ?ms ?tr] =>
         rewrite (extend_throughput_runs pm n ms tr)
     | |- context [await_latencies ?w ?c ?tr] =>
         let E := fresh "E" in
         destruct (await_latencies_cases w c tr) as [(? & E) | (? & E)];
         rewrite E; clear E; [| cbv beta iota; intros; discriminate]
     | |- context [await_mean_std ?w ?c ?tr] =>
         let E := fresh "E" in
         destruct (await_mean_std_cases w c tr) as [(? & ? & E) | (? & E)];
         rewrite E; clear E; [| cbv beta iota; intros; discriminate]
     end).

(** The same in a world where no sampler fails. *)
Ltac run_driver_in Hw :=
  unfold_driver;
  repeat
    (cbv beta iota; cbn [app];
     match goal with
     | |- context [extend_latencies ?pm ?n ?l ?tr] =>
         rewrite (extend_latencies_runs pm n l tr)
     | |- context [extend_throughput ?pm ?n ?ms ?tr] =>
         rewrite (extend_throughput_runs pm n ms tr)
     | |- context [await_latencies ?w ?c ?tr] =>
         let E := fresh "E" in
         destruct (await_latencies_succeeds w c tr Hw) as (? & E);
         rewrite E; clear E
     | |- context [await_mean_std ?w ?c ?tr] =>
         let E := fresh "E" in
         destruct (await_mean_std_succeeds w c tr Hw) as (? & ? & E);
         rewrite E; clear E
     end).

(** Where no sampler fails the driver runs to the end. *)
Lemma _main_succeeds (w : world) (output_path : option string)
  (run_http run_grpc run_handle run_latency run_throughput : bool) :
  never_fails w ->
  exists tr,
    _main w output_path run_http run_grpc run_handle run_latency run_throughput [] =
    (Ok tt, tr).
Proof.
  intros Hw.
  destruct run_http, run_grpc, run_handle, run_latency, run_throughput;
    run_driver_in Hw; eexists; reflexivity.
Qed.

(** A run that ends well ran the planned benchmarks in the planned order and
    saved the report of their results. *)
Lemma _main_trace (w : world) (output_path : option string)
  (run_http run_grpc run_handle run_latency run_throughput : bool) (tr : list event) :
  _main w output_path run_http run_grpc run_handle run_latency run_throughput [] =
  (Ok tt, tr) ->
  let slots := plan run_http run_grpc run_handle run_latency run_throughput in
  map fst (benchmarks_of tr) = map slot_call slots /\
  saved_perf_metrics tr = Some (report slots (map snd (benchmarks_of tr))).
Proof.
  destruct run_http, run_grpc, run_handle, run_latency, run_throughput;
    run_driver; intros H; injection H as <-;
    (split; [reflexivity |]);
    cbn -[records_of]; rewrite <- ?app_assoc, ?app_nil_r; reflexivity.
Qed.

(** Run the driver symbolically and keep the runs a failing sampler ends. *)
Ltac run_driver_all :=
  unfold_driver;
  repeat
    (cbv beta iota; cbn [app];
     match goal with
     | |- context [extend_latencies ?pm ?n ?l ?tr] =>
         rewrite (extend_latencies_runs pm n l tr)
     | |- context [extend_throughput ?pm ?n ?ms ?tr] =>
         rewrite (extend_throughput_runs pm n ms tr)
     | |- context [await_latencies ?w ?c ?tr] =>
         let E := fresh "E" in
         destruct (await_latencies_cases w c tr) as [(? & E) | (? & E)];
         rewrite E; clear E
     | |- context [await_mean_std ?w ?c ?tr] =>
         let E := fresh "E" in
         destruct (await_mean_std_cases w c tr) as [(? & ? & E) | (? & E)];
         rewrite E; clear E
     end).

(** ** Records *)

(** Read the three fields off a record that is written out. *)
Ltac record_fields :=
  unfold is_perf_metric_record; cbn;
  split; [reflexivity |];
  split; [eexists; reflexivity |];
  split; [eexists; reflexivity |];
  first [left; reflexivity | right; reflexivity].

Lemma latency_records_wellformed (name : string) (samples : Series) (recs : list dict) :
  fst (convert_latencies_to_perf_metrics name samples) = Ok recs ->
  Forall is_perf_metric_record recs.
Proof.
  rewrite convert_latencies_runs. cbn [fst]. intros H. injection H as <-.
  repeat first [apply Forall_cons | apply Forall_nil]; record_fields.
Qed.

Lemma throughput_records_wellformed (name : string) (mean std : pyfloat) :
  Forall is_perf_metric_record (convert_throughput_to_perf_metrics name mean std).
Proof.
  unfold convert_throughput_to_perf_metrics.
  repeat first [apply Forall_cons | apply Forall_nil]; record_fields.
Qed.

Lemma records_of_reporter (name : string) (res : benchmark_result) :
  Forall (fun d => is_perf_metric_record d /\ made_by_reporter d) (records_of name res).
Proof.
  apply Forall_forall. intros d Hd. destruct res as [samples | mean std]; unfold records_of in Hd.
  - destruct (fst (convert_latencies_to_perf_metrics name samples)) as [recs | e] eqn:E;
      [| contradiction].
    split.
    + pose proof (latency_records_wellformed name samples recs E) as W.
      rewrite Forall_forall in W. apply W, Hd.
    + left. exists name, samples, recs. split; assumption.
  - split.
    + pose proof (throughput_records_wellformed name mean std) as W.
      rewrite Forall_forall in W. apply W, Hd.
    + right. exists name, mean, std. exact Hd.
Qed.

(** Whatever the samplers do, only reporter records leave [_main]. *)
Lemma _main_records (w : world) (output_path : option string)
  (run_http run_grpc run_handle run_latency run_throughput : bool) :
  Forall (fun d => is_perf_metric_record d /\ made_by_reporter d)
    (records_in
       (snd (_main w output_path run_http run_grpc run_handle
               run_latency run_throughput []))).
Proof.
  destruct run_http, run_grpc, run_handle, run_latency, run_throughput;
    run_driver_all;
    cbn -[records_of]; rewrite ?app_nil_r;
    repeat (apply Forall_app; split);
    solve [constructor | apply records_of_reporter].
Qed.

(** C5. Every Perf Metric Record the program produces has exactly three
    fields, a string name, a float value and a kind that is LATENCY or
    THROUGHPUT: this holds of what either reporter function returns, and
    every record that leaves the driver, logged or saved, is one that a
    reporter function returned. *)
Theorem perf_metric_records :
  (forall (name : string) (samples : Series) (recs : list dict),
      fst (convert_latencies_to_perf_metrics name samples) = Ok recs ->
      Forall is_perf_metric_record recs) /\
  (forall (name : string) (mean std : pyfloat),
      Forall is_perf_metric_record (convert_throughput_to_perf_metrics name mean std)) /\
  (forall (w : world) (output_path : option string)
          (run_all run_http run_grpc run_handle run_latency run_throughput : bool),
      Forall (fun d => is_perf_metric_record d /\ made_by_reporter d)
        (records_in
           (snd (main w output_path run_all run_http run_grpc run_handle
                   run_latency run_throughput [])))).
Proof.
  split; [exact latency_records_wellformed |].
  split; [exact throughput_records_wellformed |].
  intros w output_path run_all run_http run_grpc run_handle run_latency run_throughput.
  destruct run_all, run_http, run_grpc, run_handle, run_latency, run_throughput;
    unfold main; cbv beta iota zeta delta [negb orb];
    apply _main_records.
Qed.

(** C6. The reported list follows the run order.  A run of [_main] that ends
    well ran exactly the selected benchmarks in the order of the schedule
    (HTTP, gRPC, handle; latency before throughput; no payload, 1 MB, 10 MB),
    and the saved [perf_metrics] is the concatenation, in that same order, of
    the records made of each benchmark's result; and where no sampler fails
    the run does end well. *)
Theorem reported_in_run_order (w : world) (output_path : option string)
  (run_http run_grpc run_handle run_latency run_throughput : bool) :
  let slots := plan run_http run_grpc run_handle run_latency run_throughput in
  (never_fails w ->
   exists tr,
     _main w output_path run_http run_grpc run_handle run_latency run_throughput [] =
     (Ok tt, tr)) /\
  (forall tr,
      _main w output_path run_http run_grpc run_handle run_latency run_throughput [] =
      (Ok tt, tr) ->
      map fst (benchmarks_of tr) = map slot_call slots /\
      saved_perf_metrics tr = Some (report slots (map snd (benchmarks_of tr)))).
Proof.
  intros slots. split.
  - apply _main_succeeds.
  - intros tr H. exact (_main_trace w output_path _ _ _ _ _ tr H).
Qed.

(** The whole suite in a world where every latency benchmark measures
    0.1 s, 0.3 s and 0.2 s and every throughput benchmark reports 120 and 5. *)
Lemma reported_in_run_order_witness :
  let w := steady_world [1 # 10; 3 # 10; 2 # 10] (Float 120) (Float 5) in
  let tr := snd (_main w None true true true true true []) in
  never_fails w /\
  _main w None true true true true true [] = (Ok tt, tr) /\
  map fst (benchmarks_of tr) = map slot_call schedule /\
  saved_perf_metrics tr = Some (report schedule (map snd (benchmarks_of tr))).
Proof.
  intros w tr.
  assert (Hw : never_fails w) by (split; intros; eexists; reflexivity).
  assert (Hrun : _main w None true true true true true [] = (Ok tt, tr))
    by (vm_compute; reflexivity).
  split; [exact Hw |]. split; [exact Hrun |].
  exact (proj2 (reported_in_run_order w None true true true true true) tr Hrun).
Defined.

(** An explicit run: HTTP only, latency and throughput. *)
Example http_metric_names :
  let w := steady_world [1 # 10; 3 # 10; 2 # 10] (Float 120) (Float 5) in
  option_map (column "perf_metric_name")
    (saved_perf_metrics (snd (main w None false true false false true true []))) =
  Some (map (fun n => Some (VStr n))
          [ "http_p50_latency"; "http_p90_latency"; "http_p95_latency"; "http_p99_latency";
            "http_1mb_p50_latency"; "http_1mb_p90_latency"; "http_1mb_p95_latency";
            "http_1mb_p99_latency";
            "http_10mb_p50_latency"; "http_10mb_p90_latency"; "http_10mb_p95_latency";
            "http_10mb_p99_latency";
            "http_avg_rps"; "http_throughput_std";
            "http_100_max_ongoing_requests_avg_rps";
            "http_100_max_ongoing_requests_throughput_std" ]).
Proof. vm_compute. reflexivity. Qed.

(** ** The command line *)

(** C9, as amended.  When [--run-all] is not given and at least one of
    [--run-latency] and [--run-throughput] is set but no transport flag is,
    the run-all default is not triggered and no benchmark runs: whatever the
    samplers would do, the program ends well and saves a result whose
    [perf_metrics] list is empty.  Conversely, when none of the five flags is
    set, the driver runs with all five on, so every benchmark of the schedule
    is selected, and they all run where no sampler fails. *)
Theorem kinds_without_transport :
  (forall (w : world) (output_path : option string) (run_latency run_throughput : bool),
      run_latency || run_throughput = true ->
      exists tr,
        main w output_path false false false false run_latency run_throughput [] =
        (Ok tt, tr) /\
        tr = [ serve_start 9000%N; logging_info [];
               save_test_results [("perf_metrics", [])] output_path ] /\
        benchmarks_of tr = [] /\
        saved_perf_metrics tr = Some []) /\
  (forall (w : world) (output_path : option string) (run_all : bool),
      main w output_path run_all false false false false false [] =
      _main w output_path true true true true true [] /\
      plan true true true true true = schedule /\
      (never_fails w ->
       exists tr,
         main w output_path run_all false false false false false [] = (Ok tt, tr) /\
         map fst (benchmarks_of tr) = map slot_call schedule)).
Proof.
  split.
  - intros w output_path run_latency run_throughput Hkind.
    eexists. split; [| split; [reflexivity | split; reflexivity]].
    destruct run_latency, run_throughput; try discriminate Hkind; reflexivity.
  - intros w output_path run_all.
    split; [destruct run_all; reflexivity |].
    split; [reflexivity |].
    intros Hw.
    destruct (_main_succeeds w output_path true true true true true Hw) as [tr Htr].
    exists tr. split.
    + destruct run_all; exact Htr.
    + exact (proj1 (_main_trace w output_path true true true true true tr Htr)).
Qed.

(** [--run-latency] alone, in a world where every sampler would fail. *)
Lemma kinds_without_transport_witness :
  true || false = true /\
  exists tr,
    main broken_world (Some "/tmp/out.json") false false false false true false [] =
    (Ok tt, tr) /\
    tr = [ serve_start 9000%N; logging_info [];
           save_test_results [("perf_metrics", [])] (Some "/tmp/out.json") ] /\
    benchmarks_of tr = [] /\
    saved_perf_metrics tr = Some [].
Proof.
  split; [reflexivity |].
  apply (proj1 kinds_without_transport broken_world (Some "/tmp/out.json") true false).
  reflexivity.
Defined.

(** C9, as stated, fails: [--run-all --run-latency] sets one of the five flags
    and no transport flag, yet all fifteen benchmarks run and the saved list
    is not empty. *)
Lemma run_all_overrides_selection :
  let w := steady_world [1 # 10; 3 # 10; 2 # 10] (Float 120) (Float 5) in
  let run := main w None true false false false true false [] in
  false || false || false || true || false = true /\
  fst run = Ok tt /\
  map fst (benchmarks_of (snd run)) = map slot_call schedule /\
  List.length (benchmarks_of (snd run)) = 15%nat /\
  saved_perf_metrics (snd run) <> Some [].
Proof.
  intros w run.
  split; [reflexivity |]. split; [reflexivity |].
  split; [vm_compute; reflexivity |]. split; [reflexivity |].
  vm_compute. discriminate.
Qed.

(** ** The batch barrier *)

Section Trial.

Import ThroughputSampler.

Variables batch_size trial_runtime : nat.

Lemma run_app (pre post : list action) (s : trial) :
  run batch_size trial_runtime (pre ++ post) s =
  match run batch_size trial_runtime pre s with
  | Some s1 => run batch_size trial_runtime post s1
  | None => None
  end.
Proof.
  revert s. induction pre as [| a pre IH]; intros s; simpl.
  - reflexivity.
  - destruct (step batch_size trial_runtime a s) as [s' |]; [apply IH | reflexivity].
Qed.

(** One action keeps the calls in flight under the high-water mark, the mark
    under the batch size, and accounts for every launched call. *)
Lemma step_invariant (a : action) (s s' : trial) (k : nat) :
  step batch_size trial_runtime a s = Some s' ->
  (in_flight s <= high_water s)%nat -> (high_water s <= batch_size)%nat ->
  (completed s + in_flight s = k * batch_size)%nat ->
  (in_flight s' <= high_water s')%nat /\ (high_water s' <= batch_size)%nat /\
  (completed s' + in_flight s' = (launches [a] + k) * batch_size)%nat.
Proof.
  intros Hstep H1 H2 H3. destruct a; simpl in Hstep.
  - destruct (negb (finished s) && (in_flight s =? 0)%nat && (elapsed s <? trial_runtime)%nat)
      eqn:G; [| discriminate].
    apply andb_prop in G. destruct G as [G _]. apply andb_prop in G. destruct G as [_ G].
    apply Nat.eqb_eq in G.
    injection Hstep as <-. cbn. lia.
  - destruct (in_flight s) as [| n] eqn:F; [discriminate |].
    injection Hstep as <-. cbn. lia.
  - injection Hstep as <-. cbn. lia.
  - destruct (negb (finished s) && (in_flight s =? 0)%nat && negb (elapsed s <? trial_runtime)%nat)
      eqn:G; [| discriminate].
    apply andb_prop in G. destruct G as [G _]. apply andb_prop in G. destruct G as [_ G].
    apply Nat.eqb_eq in G.
    injection Hstep as <-. cbn. lia.
Qed.

Lemma launches_cons (a : action) (acts : list action) :
  launches (a :: acts) = (launches [a] + launches acts)%nat.
Proof. unfold launches. simpl. destruct a; reflexivity. Qed.

Lemma run_invariant (acts : list action) (s0 s : trial) (k : nat) :
  run batch_size trial_runtime acts s0 = Some s ->
  (in_flight s0 <= high_water s0)%nat -> (high_water s0 <= batch_size)%nat ->
  (completed s0 + in_flight s0 = k * batch_size)%nat ->
  (in_flight s <= high_water s)%nat /\ (high_water s <= batch_size)%nat /\
  (completed s + in_flight s = (launches acts + k) * batch_size)%nat.
Proof.
  revert s0 k. induction acts as [| a acts IH]; intros s0 k Hrun H1 H2 H3; simpl in Hrun.
  - injection Hrun as <-. cbn. auto.
  - destruct (step batch_size trial_runtime a s0) as [s1 |] eqn:Hstep; [| discriminate].
    destruct (step_invariant a s0 s1 k Hstep H1 H2 H3) as (I1 & I2 & I3).
    destruct (IH s1 (launches [a] + k)%nat Hrun I1 I2 I3) as (J1 & J2 & J3).
    rewrite launches_cons. repeat split; try assumption. lia.
Qed.

(** A batch is launched only when nothing is in flight. *)
Lemma launch_enabled (s s' : trial) :
  step batch_size trial_runtime Launch s = Some s' ->
  in_flight s = 0%nat /\ in_flight s' = batch_size.
Proof.
  simpl.
  destruct (negb (finished s) && (in_flight s =? 0)%nat && (elapsed s <? trial_runtime)%nat)
    eqn:G; [| discriminate].
  apply andb_prop in G. destruct G as [G _]. apply andb_prop in G. destruct G as [_ G].
  apply Nat.eqb_eq in G. intros H. injection H as <-. cbn. auto.
Qed.

End Trial.

(** C4. The batch barrier.  In any trial of the throughput sampler, at no
    instant are more than [batch_size] calls in flight: the high-water mark
    never exceeds [batch_size].  A batch is launched only after every call of
    the batches before it has completed, and it puts exactly [batch_size]
    calls in flight. *)
Theorem batch_barrier (batch_size trial_runtime : nat)
  (acts : list ThroughputSampler.action) (s : ThroughputSampler.trial) :
  ThroughputSampler.run batch_size trial_runtime acts ThroughputSampler.start = Some s ->
  (ThroughputSampler.in_flight s <= ThroughputSampler.high_water s)%nat /\
  (ThroughputSampler.high_water s <= batch_size)%nat /\
  (ThroughputSampler.completed s + ThroughputSampler.in_flight s =
   ThroughputSampler.launches acts * batch_size)%nat /\
  (forall pre post s1,
      acts = pre ++ ThroughputSampler.Launch :: post ->
      ThroughputSampler.run batch_size trial_runtime pre ThroughputSampler.start = Some s1 ->
      ThroughputSampler.in_flight s1 = 0%nat /\
      ThroughputSampler.completed s1 = (ThroughputSampler.launches pre * batch_size)%nat /\
      exists s2,
        ThroughputSampler.step batch_size trial_runtime ThroughputSampler.Launch s1 = Some s2 /\
        ThroughputSampler.in_flight s2 = batch_size).
Proof.
  intros Hrun.
  assert (Hstart : forall acts' s',
             ThroughputSampler.run batch_size trial_runtime acts' ThroughputSampler.start
             = Some s' ->
             (ThroughputSampler.in_flight s' <= ThroughputSampler.high_water s')%nat /\
             (ThroughputSampler.high_water s' <= batch_size)%nat /\
             (ThroughputSampler.completed s' + ThroughputSampler.in_flight s' =
              ThroughputSampler.launches acts' * batch_size)%nat).
  { intros acts' s' H.
    pose proof (run_invariant batch_size trial_runtime acts' _ s' 0 H) as I.
    cbn in I. rewrite Nat.add_0_r in I. apply I; lia. }
  destruct (Hstart acts s Hrun) as (I1 & I2 & I3).
  split; [exact I1 |]. split; [exact I2 |]. split; [exact I3 |].
  intros pre post s1 -> Hpre.
  rewrite run_app, Hpre in Hrun. cbn [ThroughputSampler.run] in Hrun.
  destruct (ThroughputSampler.step batch_size trial_runtime ThroughputSampler.Launch s1)
    as [s2 |] eqn:Hstep; [| discriminate Hrun].
  destruct (launch_enabled batch_size trial_runtime s1 s2 Hstep) as [Z1 Z2].
  destruct (Hstart pre s1 Hpre) as (_ & _ & J).
  split; [exact Z1 |]. split; [lia |].
  exists s2. split; [reflexivity | exact Z2].
Qed.

(** Two batches of three calls in a trial of two ticks. *)
Lemma batch_barrier_witness :
  let acts :=
    [ ThroughputSampler.Launch; ThroughputSampler.Complete; ThroughputSampler.Tick;
      ThroughputSampler.Complete; ThroughputSampler.Complete;
      ThroughputSampler.Launch; ThroughputSampler.Complete; ThroughputSampler.Complete;
      ThroughputSampler.Tick; ThroughputSampler.Complete; ThroughputSampler.Finish ] in
  let s :=
    {| ThroughputSampler.in_flight := 0; ThroughputSampler.high_water := 3;
       ThroughputSampler.completed := 6; ThroughputSampler.elapsed := 2;
       ThroughputSampler.finished := true |} in
  ThroughputSampler.run 3 2 acts ThroughputSampler.start = Some s /\
  (ThroughputSampler.in_flight s <= ThroughputSampler.high_water s)%nat /\
  (ThroughputSampler.high_water s <= 3)%nat /\
  (ThroughputSampler.completed s + ThroughputSampler.in_flight s =
   ThroughputSampler.launches acts * 3)%nat /\
  (forall pre post s1,
      acts = pre ++ ThroughputSampler.Launch :: post ->
      ThroughputSampler.run 3 2 pre ThroughputSampler.start = Some s1 ->
      ThroughputSampler.in_flight s1 = 0%nat /\
      ThroughputSampler.completed s1 = (ThroughputSampler.launches pre * 3)%nat /\
      exists s2,
        ThroughputSampler.step 3 2 ThroughputSampler.Launch s1 = Some s2 /\
        ThroughputSampler.in_flight s2 = 3%nat).
Proof.
  intros acts s.
  assert (Hrun : ThroughputSampler.run 3 2 acts ThroughputSampler.start = Some s)
    by reflexivity.
  split; [exact Hrun |].
  exact (batch_barrier 3 2 acts s Hrun).
Defined.

(** The barrier at work: a second batch cannot be launched while a call of the
    first is still in flight, and no batch is launched once the time is up. *)
Example no_sliding_window :
  ThroughputSampler.run 3 2
    [ThroughputSampler.Launch; ThroughputSampler.Complete; ThroughputSampler.Launch]
    ThroughputSampler.start = None /\
  ThroughputSampler.run 3 2
    [ThroughputSampler.Tick; ThroughputSampler.Tick; ThroughputSampler.Launch]
    ThroughputSampler.start = None.
Proof. split; reflexivity. Qed.

(** ** How a run ends *)

(** An awaited sampler, with what the world answered. *)
Lemma await_latencies_outcomes (w : world) (call : benchmark_call) (tr : list event) :
  (exists samples,
      await_latencies w call tr =
      (Ok samples, tr ++ [benchmark_run call (latencies_of samples)])) \/
  (exists e,
      latency_outcome w tr call = Raise e /\
      await_latencies w call tr = (Raise e, tr)).
Proof.
  unfold await_latencies. destruct (latency_outcome w tr call); eauto.
Qed.

Lemma await_mean_std_outcomes (w : world) (call : benchmark_call) (tr : list event) :
  (exists mean std,
      await_mean_std w call tr =
      (Ok (mean, std), tr ++ [benchmark_run call (mean_std_of mean std)])) \/
  (exists e,
      throughput_outcome w tr call = Raise e /\
      await_mean_std w call tr = (Raise e, tr)).
Proof.
  unfold await_mean_std.
  destruct (throughput_outcome w tr call) as [[mean std] | e]; eauto.
Qed.

(** Run the driver symbolically and remember which sampler ended a run. *)
Ltac run_driver_outcomes :=
  unfold_driver;
  repeat
    (cbv beta iota; cbn [app];
     match goal with
     | |- context [extend_latencies ?pm ?n ?l ?tr] =>
         rewrite (extend_latencies_runs pm n l tr)
     | |- context [extend_throughput ?pm ?n ?ms ?tr] =>
         rewrite (extend_throughput_runs pm n ms tr)
     | |- context [await_latencies ?w ?c ?tr] =>
         let E := fresh "E" in let F := fresh "Hraise" in
         destruct (await_latencies_outcomes w c tr) as [(? & E) | (? & F & E)];
         rewrite E; clear E
     | |- context [await_mean_std ?w ?c ?tr] =>
         let E := fresh "E" in let F := fresh "Hraise" in
         destruct (await_mean_std_outcomes w c tr) as [(? & ? & E) | (? & F & E)];
         rewrite E; clear E
     end).

(** X1. A failing sampler ends the run at once: [_main] raises the sampler's
    exception, nothing has been logged or saved, the benchmarks that ran are
    the selected ones up to the failing one, in order, and no later one ran. *)
Theorem sampler_failure_ends_run (w : world) (output_path : option string)
  (run_http run_grpc run_handle run_latency run_throughput : bool)
  (e : exn) (tr : list event) :
  _main w output_path run_http run_grpc run_handle run_latency run_throughput [] =
  (Raise e, tr) ->
  forallb (fun ev => negb (is_report_event ev)) tr = true /\
  saved_perf_metrics tr = None /\
  exists call rest,
    map slot_call (plan run_http run_grpc run_handle run_latency run_throughput) =
    map fst (benchmarks_of tr) ++ call :: rest /\
    (latency_outcome w tr call = Raise e \/ throughput_outcome w tr call = Raise e).
Proof.
  destruct run_http, run_grpc, run_handle, run_latency, run_throughput;
    run_driver_outcomes; intros H; try discriminate H;
    injection H as <- <-;
    (split; [reflexivity |]); (split; [reflexivity |]);
    do 2 eexists; (split; [cbn; reflexivity |]);
    first [left; eassumption | right; eassumption].
Qed.

(** HTTP only: the second throughput benchmark fails. *)
Lemma sampler_failure_ends_run_witness :
  let w := failing_after 4 [1 # 10; 3 # 10; 2 # 10] (Float 120) (Float 5) in
  let e := RuntimeError "request failed" in
  let tr := snd (_main w None true false false true true []) in
  _main w None true false false true true [] = (Raise e, tr) /\
  forallb (fun ev => negb (is_report_event ev)) tr = true /\
  saved_perf_metrics tr = None /\
  exists call rest,
    map slot_call (plan true false false true true) =
    map fst (benchmarks_of tr) ++ call :: rest /\
    (latency_outcome w tr call = Raise e \/ throughput_outcome w tr call = Raise e).
Proof.
  intros w e tr.
  assert (Hrun : _main w None true false false true true [] = (Raise e, tr))
    by (vm_compute; reflexivity).
  split; [exact Hrun |].
  exact (sampler_failure_ends_run w None true false false true true e tr Hrun).
Defined.

(** In that run four benchmarks ran and the fifth call is the one that failed. *)
Example sampler_failure_example :
  let w := failing_after 4 [1 # 10; 3 # 10; 2 # 10] (Float 120) (Float 5) in
  let run := _main w None true false false true true [] in
  fst run = Raise (RuntimeError "request failed") /\
  List.length (benchmarks_of (snd run)) = 4%nat /\
  records_in (snd run) = [].
Proof. vm_compute. repeat split. Qed.

(** X2. A run of [_main] that ends well reports once, at the end: its last two
    events are the log of the list and the save of that same list under the
    key [perf_metrics] to [output_path]; nothing is logged or saved before,
    and the first event is [serve.start]. *)
Theorem results_reported_once_at_end (w : world) (output_path : option string)
  (run_http run_grpc run_handle run_latency run_throughput : bool) (tr : list event) :
  _main w output_path run_http run_grpc run_handle run_latency run_throughput [] =
  (Ok tt, tr) ->
  exists perf_metrics,
    skipn (List.length tr - 2) tr =
      [ logging_info perf_metrics;
        save_test_results [("perf_metrics", perf_metrics)] output_path ] /\
    forallb (fun ev => negb (is_report_event ev)) (firstn (List.length tr - 2) tr) = true /\
    hd_error tr = Some (serve_start 9000%N).
Proof.
  destruct run_http, run_grpc, run_handle, run_latency, run_throughput;
    run_driver; intros H; injection H as <-;
    eexists; (split; [reflexivity |]); split; reflexivity.
Qed.

Lemma results_reported_once_at_end_witness :
  let w := steady_world [1 # 10; 3 # 10; 2 # 10] (Float 120) (Float 5) in
  let tr := snd (_main w (Some "/tmp/out.json") false true false true false []) in
  _main w (Some "/tmp/out.json") false true false true false [] = (Ok tt, tr) /\
  exists perf_metrics,
    skipn (List.length tr - 2) tr =
      [ logging_info perf_metrics;
        save_test_results [("perf_metrics", perf_metrics)] (Some "/tmp/out.json") ] /\
    forallb (fun ev => negb (is_report_event ev)) (firstn (List.length tr - 2) tr) = true /\
    hd_error tr = Some (serve_start 9000%N).
Proof.
  intros w tr.
  assert (Hrun : _main w (Some "/tmp/out.json") false true false true false [] = (Ok tt, tr))
    by (vm_compute; reflexivity).
  split; [exact Hrun |].
  exact (results_reported_once_at_end w (Some "/tmp/out.json")
           false true false true false tr Hrun).
Defined.

(** ** What the benchmarks run against *)

(** X3. In every run of [main], ended well or not, each benchmark runs after
    a [serve.run], and the application deployed last before it is the one
    that answers its calls. *)
Theorem benchmarks_run_against_their_application (w : world) (output_path : option string)
  (run_all run_http run_grpc run_handle run_latency run_throughput : bool) :
  forallb (fun target => serves (fst target) (snd target))
    (targets_of None
       (snd (main w output_path run_all run_http run_grpc run_handle
               run_latency run_throughput []))) = true.
Proof.
  assert (H : forall http grpc handle latency throughput,
             forallb (fun target => serves (fst target) (snd target))
               (targets_of None
                  (snd (_main w output_path http grpc handle latency throughput []))) = true).
  { intros http grpc handle latency throughput.
    destruct http, grpc, handle, latency, throughput; run_driver_all; reflexivity. }
  destruct run_all, run_http, run_grpc, run_handle, run_latency, run_throughput;
    unfold main; cbv beta iota zeta delta [negb orb]; apply H.
Qed.

(** X4. In every run of [_main] the benchmarks that ran are the first ones
    selected, and a benchmark whose metrics are named
    [..._100_max_ongoing_requests] ran with [max_ongoing_requests=100] on every
    deployment of its application, every other one with the default. *)
Theorem limit_named_is_limit_deployed (w : world) (output_path : option string)
  (run_http run_grpc run_handle run_latency run_throughput : bool) :
  let tr :=
    snd (_main w output_path run_http run_grpc run_handle run_latency run_throughput []) in
  let slots := plan run_http run_grpc run_handle run_latency run_throughput in
  map snd (targets_of None tr) =
    firstn (List.length (targets_of None tr)) (map slot_call slots) /\
  forallb
    (fun '((app, _), b) =>
       let limit :=
         if ends_with "_100_max_ongoing_requests" (slot_name b)
         then Some 100%N else None in
       match app with
       | Some a => limited_to limit a
       | None => false
       end)
    (combine (targets_of None tr) slots) = true.
Proof.
  intros tr slots. subst tr slots.
  destruct run_http, run_grpc, run_handle, run_latency, run_throughput;
    run_driver_all; split; reflexivity.
Qed.

Example ends_with_examples :
  ends_with "_100_max_ongoing_requests" "grpc_100_max_ongoing_requests" = true /\
  ends_with "_100_max_ongoing_requests" "grpc" = false /\
  ends_with "_100_max_ongoing_requests" "_100_max_ongoing_requests_x" = false.
Proof. repeat split. Qed.

(** ** How the benchmarks are set up *)

(** X10. In every run of [main], ended well or not, all latency benchmarks ask
    for [NUM_REQUESTS] requests and all throughput benchmarks use
    [BATCH_SIZE], [NUM_TRIALS] and [TRIAL_RUNTIME_S]; over HTTP and gRPC the
    multiplier is the batch size of the batch function, so that the rate
    counts requests and not batches. *)
Theorem benchmarks_share_configuration (w : world) (output_path : option string)
  (run_all run_http run_grpc run_handle run_latency run_throughput : bool) :
  forallb
    (fun b => configured NUM_REQUESTS BATCH_SIZE NUM_TRIALS TRIAL_RUNTIME_S (fst b))
    (benchmarks_of
       (snd (main w output_path run_all run_http run_grpc run_handle
               run_latency run_throughput []))) = true.
Proof.
  assert (H : forall http grpc handle latency throughput,
             forallb
               (fun b => configured NUM_REQUESTS BATCH_SIZE NUM_TRIALS TRIAL_RUNTIME_S (fst b))
               (benchmarks_of
                  (snd (_main w output_path http grpc handle latency throughput []))) = true).
  { intros http grpc handle latency throughput.
    destruct http, grpc, handle, latency, throughput; run_driver_all; reflexivity. }
  destruct run_all, run_http, run_grpc, run_handle, run_latency, run_throughput;
    unfold main; cbv beta iota zeta delta [negb orb]; apply H.
Qed.

(** X11. In every run of [_main] a latency benchmark whose metrics are named
    [..._1mb] sends a payload of 1,000,000 bytes with each request, one named
    [..._10mb] a payload of 10,000,000 bytes, and any other an empty payload
    or none. *)
Theorem payload_named_is_payload_sent (w : world) (output_path : option string)
  (run_http run_grpc run_handle run_latency run_throughput : bool) :
  let tr :=
    snd (_main w output_path run_http run_grpc run_handle run_latency run_throughput []) in
  let slots := plan run_http run_grpc run_handle run_latency run_throughput in
  map fst (benchmarks_of tr) =
    firstn (List.length (benchmarks_of tr)) (map slot_call slots) /\
  forallb
    (fun '((call, _), b) =>
       match slot_kind b with
       | LATENCY =>
           N.eqb (payload_size_of call)
             (if ends_with "_1mb" (slot_name b) then 1000000
              else if ends_with "_10mb" (slot_name b) then 10000000
              else 0)
       | THROUGHPUT => true
       end)
    (combine (benchmarks_of tr) slots) = true.
Proof.
  intros tr slots. subst tr slots.
  destruct run_http, run_grpc, run_handle, run_latency, run_throughput;
    run_driver_all; split; reflexivity.
Qed.

(** ** The names in the report *)

Lemma all_distinct_NoDup (l : list string) : all_distinct l = true -> NoDup l.
Proof.
  induction l as [| x l IH]; simpl; intros H.
  - constructor.
  - apply andb_prop in H. destruct H as [Hx Hl].
    constructor; [| apply IH, Hl].
    intros Hin. apply negb_true_iff in Hx.
    assert (E : existsb (String.eqb x) l = true).
    { apply existsb_exists. exists x. split; [exact Hin | apply String.eqb_refl]. }
    congruence.
Qed.

Lemma names_of_app (a b : list dict) : names_of (a ++ b) = names_of a ++ names_of b.
Proof. unfold names_of. apply flat_map_app. Qed.

Lemma names_of_latency_records (name : string) (samples : Series) :
  names_of (records_of name (latencies_of samples)) =
  [ (name ++ "_p50_latency")%string; (name ++ "_p90_latency")%string;
    (name ++ "_p95_latency")%string; (name ++ "_p99_latency")%string ].
Proof. unfold records_of. rewrite convert_latencies_runs. reflexivity. Qed.

Lemma names_of_throughput_records (name : string) (mean std : pyfloat) :
  names_of (records_of name (mean_std_of mean std)) =
  [ (name ++ "_avg_rps")%string; (name ++ "_throughput_std")%string ].
Proof. reflexivity. Qed.

Lemma length_latency_records (name : string) (samples : Series) :
  List.length (records_of name (latencies_of samples)) = 4%nat.
Proof. unfold records_of. rewrite convert_latencies_runs. reflexivity. Qed.

Lemma length_throughput_records (name : string) (mean std : pyfloat) :
  List.length (records_of name (mean_std_of mean std)) = 2%nat.
Proof. reflexivity. Qed.

(** The names saved by a run that ends well, benchmark by benchmark. *)
Lemma _main_saved_names (w : world) (output_path : option string)
  (run_http run_grpc run_handle run_latency run_throughput : bool) (tr : list event) :
  _main w output_path run_http run_grpc run_handle run_latency run_throughput [] =
  (Ok tt, tr) ->
  exists perf_metrics,
    saved_perf_metrics tr = Some perf_metrics /\
    names_of perf_metrics =
      flat_map slot_metric_names
        (plan run_http run_grpc run_handle run_latency run_throughput) /\
    List.length (names_of perf_metrics) = List.length perf_metrics.
Proof.
  destruct run_http, run_grpc, run_handle, run_latency, run_throughput;
    run_driver; intros H; injection H as <-;
    eexists; (split; [cbn -[records_of]; reflexivity |]);
    cbn [fst snd];
    rewrite ?names_of_app, ?length_app, ?names_of_latency_records,
      ?names_of_throughput_records, ?length_latency_records, ?length_throughput_records;
    split; reflexivity.
Qed.

(** X5. In the report saved by a run of [_main] that ends well every record
    has a name and no two records have the same name, whatever the flags. *)
Theorem saved_metric_names_are_distinct (w : world) (output_path : option string)
  (run_http run_grpc run_handle run_latency run_throughput : bool) (tr : list event) :
  _main w output_path run_http run_grpc run_handle run_latency run_throughput [] =
  (Ok tt, tr) ->
  exists perf_metrics,
    saved_perf_metrics tr = Some perf_metrics /\
    List.length (names_of perf_metrics) = List.length perf_metrics /\
    NoDup (names_of perf_metrics).
Proof.
  intros H.
  destruct (_main_saved_names w output_path _ _ _ _ _ tr H) as (pm & Hs & Hn & Hl).
  exists pm. split; [exact Hs |]. split; [exact Hl |].
  rewrite Hn. apply all_distinct_NoDup.
  destruct run_http, run_grpc, run_handle, run_latency, run_throughput;
    vm_compute; reflexivity.
Qed.

(** X6. A run of [_main] that ends well saves twelve latency records per
    selected transport when latency is selected and four throughput records
    per selected transport when throughput is selected. *)
Theorem saved_report_size (w : world) (output_path : option string)
  (run_http run_grpc run_handle run_latency run_throughput : bool) (tr : list event) :
  _main w output_path run_http run_grpc run_handle run_latency run_throughput [] =
  (Ok tt, tr) ->
  let transports :=
    ((if run_http then 1 else 0) + (if run_grpc then 1 else 0) +
     (if run_handle then 1 else 0))%nat in
  exists perf_metrics,
    saved_perf_metrics tr = Some perf_metrics /\
    List.length perf_metrics =
      ((if run_latency then 12 * transports else 0) +
       (if run_throughput then 4 * transports else 0))%nat.
Proof.
  intros H transports.
  destruct (_main_saved_names w output_path _ _ _ _ _ tr H) as (pm & Hs & Hn & Hl).
  exists pm. split; [exact Hs |].
  rewrite <- Hl, Hn. subst transports.
  destruct run_http, run_grpc, run_handle, run_latency, run_throughput; reflexivity.
Qed.

Lemma saved_metric_names_are_distinct_witness :
  let w := steady_world [1 # 10; 3 # 10; 2 # 10] (Float 120) (Float 5) in
  let tr := snd (_main w None true true true true true []) in
  _main w None true true true true true [] = (Ok tt, tr) /\
  exists perf_metrics,
    saved_perf_metrics tr = Some perf_metrics /\
    List.length (names_of perf_metrics) = List.length perf_metrics /\
    NoDup (names_of perf_metrics).
Proof.
  intros w tr.
  assert (Hrun : _main w None true true true true true [] = (Ok tt, tr))
    by (vm_compute; reflexivity).
  split; [exact Hrun |].
  exact (saved_metric_names_are_distinct w None true true true true true tr Hrun).
Defined.

Lemma saved_report_size_witness :
  let w := steady_world [1 # 10; 3 # 10; 2 # 10] (Float 120) (Float 5) in
  let tr := snd (_main w None true false true true true []) in
  _main w None true false true true true [] = (Ok tt, tr) /\
  exists perf_metrics,
    saved_perf_metrics tr = Some perf_metrics /\
    List.length perf_metrics = 32%nat.
Proof.
  intros w tr.
  assert (Hrun : _main w None true false true true true [] = (Ok tt, tr))
    by (vm_compute; reflexivity).
  split; [exact Hrun |].
  exact (saved_report_size w None true false true true true tr Hrun).
Defined.

(** ** Flags that select nothing *)

(** X7. When [--run-all] is not given and transport flags are set but neither
    [--run-latency] nor [--run-throughput] is, [main] deploys nothing, runs
    no benchmark and saves an empty [perf_metrics] list, whatever the
    samplers would do. *)
Theorem transports_without_kind (w : world) (output_path : option string)
  (run_http run_grpc run_handle : bool) :
  run_http || run_grpc || run_handle = true ->
  main w output_path false run_http run_grpc run_handle false false [] =
  (Ok tt,
   [ serve_start 9000%N; logging_info [];
     save_test_results [("perf_metrics", [])] output_path ]).
Proof.
  intros H. destruct run_http, run_grpc, run_handle; try discriminate H; reflexivity.
Qed.

Lemma transports_without_kind_witness :
  true || false || true = true /\
  main broken_world None false true false true false false [] =
  (Ok tt,
   [ serve_start 9000%N; logging_info [];
     save_test_results [("perf_metrics", [])] None ]).
Proof.
  split; [reflexivity |].
  apply (transports_without_kind broken_world None true false true). reflexivity.
Defined.

(** ** More on the reported quantiles *)

Lemma float_eq_common (x y z : pyfloat) : float_eq x z -> float_eq y z -> float_eq x y.
Proof.
  destruct x as [a |], y as [b |], z as [c |]; simpl; try contradiction.
  intros Ha Hb. rewrite Ha, Hb. reflexivity.
Qed.

(** The quantile does not depend on the order the samples came in. *)
Lemma quantile_of_permutation (samples samples' : Series) (q : Q) :
  samples <> [] -> Permutation samples samples' -> 0 <= q -> q <= 1 ->
  float_eq (quantile_of_sorted (QSort.sort samples) q)
           (quantile_of_sorted (QSort.sort samples') q).
Proof.
  intros Hne P H0 H1.
  assert (Hne' : samples' <> []).
  { intros E. subst samples'. apply Permutation_sym, Permutation_nil in P. contradiction. }
  apply float_eq_common with (Float (interpolated_quantile (QSort.sort samples') q)).
  - apply quantile_of_sorted_interpolates; try assumption.
    + apply sort_strongly_sorted.
    + apply sort_strongly_sorted.
    + eapply Permutation_trans; [apply Permutation_sym, sort_permutation |].
      eapply Permutation_trans; [exact P | apply sort_permutation].
    + apply sort_nonempty, Hne.
  - apply quantile_of_sorted_interpolates; try assumption.
    + apply sort_strongly_sorted.
    + apply sort_strongly_sorted.
    + apply Permutation_refl.
    + apply sort_nonempty, Hne'.
Qed.

(** X8. [convert_latencies_to_perf_metrics] gives the same names and equal
    values for two non-empty Series that hold the same samples in a different
    order. *)
Theorem latency_metrics_ignore_sample_order (name : string) (samples samples' : Series) :
  samples <> [] -> Permutation samples samples' ->
  exists recs recs',
    fst (convert_latencies_to_perf_metrics name samples) = Ok recs /\
    fst (convert_latencies_to_perf_metrics name samples') = Ok recs' /\
    names_of recs = names_of recs' /\
    List.length (values_of recs) = 4%nat /\
    Forall2 float_eq (values_of recs) (values_of recs').
Proof.
  intros Hne P. rewrite !convert_latencies_runs. cbn [fst].
  do 2 eexists. split; [reflexivity |]. split; [reflexivity |].
  split; [reflexivity |]. split; [reflexivity |].
  cbn. repeat (apply Forall2_cons || apply Forall2_nil);
    apply quantile_of_permutation; try assumption; lra.
Qed.



Lemma latency_metrics_ignore_sample_order_witness :
  [3; 1; 2; 10; 7] <> [] /\ Permutation [3; 1; 2; 10; 7] [1; 3; 2; 10; 7] /\
  exists recs recs',
    fst (convert_latencies_to_perf_metrics "http" [3; 1; 2; 10; 7]) = Ok recs /\
    fst (convert_latencies_to_perf_metrics "http" [1; 3; 2; 10; 7]) = Ok recs' /\
    names_of recs = names_of recs' /\
    List.length (values_of recs) = 4%nat /\
    Forall2 float_eq (values_of recs) (values_of recs').
Proof.
  assert (P : Permutation [3; 1; 2; 10; 7] [1; 3; 2; 10; 7]) by apply perm_swap.
  split; [discriminate |]. split; [exact P |].
  apply (latency_metrics_ignore_sample_order "http" [3; 1; 2; 10; 7] [1; 3; 2; 10; 7]).
  - discriminate.
  - exact P.
Defined.

